(* Verification development for the VisionCare backend:
   src/backend/ai_service.py (model loading, preprocessing, inference) and
   src/backend/app.py (patients, appointments, image upload, review queue). *)

From Stdlib Require Import List String Ascii Bool ZArith QArith Qminmax Qround Lia.
From Stdlib Require Import Sorted Permutation.
Import ListNotations.
Open Scope string_scope.

(* ------------------------------------------------------------------------- *)
(** * ai_service.py *)

Module AiService.

(** Numbers coming out of the model are modelled as exact rationals; the
    float conversions of the source are not modelled. *)

(** A preprocessed tensor: batch of images, rows, pixels, channels. *)
Definition tensor := list (list (list (list Q))).

(** A loaded Keras model is an object whose [predict] either returns a
    2-D array (one row per batch entry) or raises ([None]). *)
Record keras_model := { predict : tensor -> option (list (list Q)) }.

(** The global [model] of the module: [None], [False] after a failed load,
    or a loaded model object (truthy). *)
Inductive model_state :=
| ModelNone
| ModelFalse
| ModelLoaded (m : keras_model).

(** Python truthiness of the global [model]. *)
Definition model_truthy (s : model_state) : bool :=
  match s with ModelLoaded _ => true | _ => false end.

(** [load_model()]. The on-disk load [tf.keras.models.load_model(MODEL_PATH)]
    is an input: [attempt] is what it would produce ([None] = it raised).
    Returns the new global and whether a load from disk was attempted. *)
Definition load_model (s : model_state) (attempt : option keras_model)
  : model_state * bool :=
  match s with
  | ModelNone =>
      match attempt with
      | Some m => (ModelLoaded m, true)
      | None => (ModelFalse, true)
      end
  | _ => (s, false)
  end.

(** The result dictionary returned by [run_inference]. *)
Record result := { prediction : string; probability : Q; status : string }.

Definition model_error : result :=
  {| prediction := "Model Error"; probability := 0; status := "failed" |}.
Definition preprocessing_error : result :=
  {| prediction := "Preprocessing Error"; probability := 0; status := "failed" |}.
Definition inference_exception : result :=
  {| prediction := "Inference Exception"; probability := 0; status := "failed" |}.

Definition class_labels : list string :=
  ["Stage 0 (Normal)"; "Stage 1"; "Stage 2"; "Stage 3 (High-Risk)"].

(** Strict comparison of rationals as a boolean. *)
Definition Qlt_bool (a b : Q) : bool := negb (Qle_bool b a).

(** [np.argmax] on a 1-D sequence: index of the first maximum; raises
    ([None]) on an empty sequence. *)
Fixpoint argmax_from (i best_i : nat) (best : Q) (l : list Q) : nat :=
  match l with
  | [] => best_i
  | x :: t =>
      if Qlt_bool best x then argmax_from (S i) i x t
      else argmax_from (S i) best_i best t
  end.

Definition argmax (l : list Q) : option nat :=
  match l with
  | [] => None
  | x :: t => Some (argmax_from 1 0 x t)
  end.

(** [np.argmax(predictions, axis=1)]: one index per row. *)
Fixpoint argmax_axis1 (rows : list (list Q)) : option (list nat) :=
  match rows with
  | [] => Some []
  | r :: rs =>
      match argmax r, argmax_axis1 rs with
      | Some i, Some is_ => Some (i :: is_)
      | _, _ => None
      end
  end.

(** [np.max(predictions)]: maximum over every entry; raises when empty. *)
Definition np_max (rows : list (list Q)) : option Q :=
  match List.concat rows with
  | [] => None
  | x :: t => Some (fold_left Qmax t x)
  end.

(** Python's [round(x, 4)]: round half to even on the exact value. *)
Definition round_half_even (q : Q) : Z :=
  let f := Qfloor q in
  let r := q - inject_Z f in
  if Qlt_bool r (1 # 2) then f
  else if Qlt_bool (1 # 2) r then (f + 1)%Z
  else if Z.even f then f else (f + 1)%Z.

Definition round4 (q : Q) : Q := Qmake (round_half_even (q * 10000)) 10000.

(** The [try] block of [run_inference]: any exception gives
    "Inference Exception". *)
Definition predict_block (m : keras_model) (x : tensor) : result :=
  match predict m x with
  | None => inference_exception
  | Some predictions =>
      match argmax_axis1 predictions with
      | Some (idx :: _) =>
          match np_max predictions with
          | None => inference_exception
          | Some p =>
              match nth_error class_labels idx with
              | None => inference_exception
              | Some label =>
                  {| prediction := label; probability := round4 p;
                     status := "processed" |}
              end
          end
      | _ => inference_exception
      end
  end.

Section Preprocess.

(** The PIL and numpy steps of [preprocess_image]:
    [Image.open(io.BytesIO(b)).convert('RGB')] (fails with [None]),
    [image.resize(target_size)] and [np.array(image)]. *)
Variable image : Type.
Variable pil_open_rgb : list Byte.byte -> option image.
Variable pil_resize : image -> nat * nat -> image.
Variable np_array : image -> list (list (list Z)).

Definition preprocess_image (b : list Byte.byte) : option tensor :=
  match pil_open_rgb b with
  | None => None
  | Some img =>
      let img := pil_resize img (224%nat, 224%nat) in
      let arr := np_array img in
      let scaled := map (map (map (fun v => inject_Z v / 255))) arr in
      Some [scaled]
  end.

(** [run_inference(image_bytes)], threading the module global. *)
Definition run_inference (s : model_state) (attempt : option keras_model)
    (b : list Byte.byte) : model_state * result :=
  let (s', _) := load_model s attempt in
  if negb (model_truthy s') then (s', model_error)
  else
    match s' with
    | ModelLoaded m =>
        match preprocess_image b with
        | None => (s', preprocessing_error)
        | Some x => (s', predict_block m x)
        end
    | _ => (s', model_error)
    end.

(** A sequence of calls to [run_inference]; each call carries the outcome
    a disk load would have and the image bytes. Returns the results and the
    number of disk loads attempted. *)
Fixpoint run_calls (s : model_state) (calls : list (option keras_model * list Byte.byte))
  : list result * nat :=
  match calls with
  | [] => ([], 0%nat)
  | (a, b) :: rest =>
      let attempted := snd (load_model s a) in
      let (s', r) := run_inference s a b in
      let (rs, n) := run_calls s' rest in
      (r :: rs, if attempted then S n else n)
  end.

(** A process: the import-time [load_model()] (with disk outcome [a0]),
    then the calls. Returns the results and the number of disk loads. *)
Definition run_process (a0 : option keras_model)
    (calls : list (option keras_model * list Byte.byte)) : list result * nat :=
  let (s, attempted) := load_model ModelNone a0 in
  let (rs, n) := run_calls s calls in
  (rs, if attempted then S n else n).

End Preprocess.

(** Spec side: [k] is the first index of a maximum [y] of [v] (the class
    the spec says is selected, ties going to the lowest index). *)
Definition first_max (v : list Q) (k : nat) (y : Q) : Prop :=
  nth_error v k = Some y /\
  (forall j z, nth_error v j = Some z -> z <= y) /\
  (forall j z, (j < k)%nat -> nth_error v j = Some z -> z < y).

(** Spec side: [p] is the largest entry of [l]. *)
Definition is_max (l : list Q) (p : Q) : Prop :=
  In p l /\ (forall z, In z l -> z <= p).

End AiService.

(* ------------------------------------------------------------------------- *)
(** * app.py *)

Module App.

(** MongoDB [_id] values, handed out by [insert_one]. *)
Definition oid := nat.

(** A parsed JSON body or a form: a dict of string values. *)
Definition dict := list (string * string).

Fixpoint dict_get (k : string) (d : dict) : option string :=
  match d with
  | [] => None
  | (k', v) :: t => if String.eqb k k' then Some v else dict_get k t
  end.

(** [data[k]] for a key known to be present. *)
Definition dict_at (k : string) (d : dict) : string :=
  match dict_get k d with Some v => v | None => "" end.

(** [field in data and data[field]]: present and non-empty. *)
Definition field_ok (d : dict) (field : string) : bool :=
  match dict_get field d with
  | Some v => negb (String.eqb v "")
  | None => false
  end.

Definition all_fields (fields : list string) (d : dict) : bool :=
  forallb (field_ok d) fields.

Record patient := {
  neonate_id : string;
  name : string;
  birth_date : string;
  gestational_age : option string;
  weight : option Q;
  parent_name : string;
  parent_phone : option string;
  parent_email : option string;
  pa_status : string;
  pa_created_at : string }.

Record appointment := {
  ap_patientId : string;
  ap_patientName : string;
  ap_datetime : string;
  ap_type : string;
  ap_status : string;
  ap_created_at : string }.

(** The nested [ai_result] document of an image record. *)
Record ai_result := {
  ai_status : string;
  ai_prediction : string;
  ai_probability : Q }.

Record image_record := {
  im_patientId : string;
  im_patientName : string;
  im_filename : string;
  im_filepath : string;
  im_upload_time : string;
  im_file_size : string;
  im_status : string;
  im_ai_result : ai_result }.

(** The three collections of [rop_scan_db], the upload folder's files
    (path to content) and the next [_id]. Collections keep insertion
    (natural) order. *)
Record db := {
  patients : list (oid * patient);
  appointments : list (oid * appointment);
  images : list (oid * image_record);
  files : list (string * list Byte.byte);
  next_oid : oid }.

Definition empty_db : db :=
  {| patients := []; appointments := []; images := []; files := [];
     next_oid := 0%nat |}.

Definition insert_patient (st : db) (p : patient) : db * oid :=
  ({| patients := patients st ++ [(next_oid st, p)];
      appointments := appointments st; images := images st; files := files st;
      next_oid := S (next_oid st) |}, next_oid st).

Definition insert_appointment (st : db) (a : appointment) : db * oid :=
  ({| patients := patients st;
      appointments := appointments st ++ [(next_oid st, a)];
      images := images st; files := files st;
      next_oid := S (next_oid st) |}, next_oid st).

Definition insert_image (st : db) (r : image_record) : db * oid :=
  ({| patients := patients st; appointments := appointments st;
      images := images st ++ [(next_oid st, r)]; files := files st;
      next_oid := S (next_oid st) |}, next_oid st).

(** [patients_collection.find_one({"neonate_id": x})]. *)
Definition find_patient (st : db) (x : string) : option (oid * patient) :=
  find (fun '(_, p) => String.eqb (neonate_id p) x) (patients st).

(** The dict returned by [get_patient_details]. *)
Record patient_details := {
  patientName : string;
  patientId : string;
  pd_id : oid }.

(** JSON response bodies. *)
Inductive body :=
| Message (msg : string)
| Created (msg : string) (id : oid)
| UploadAccepted (msg : string) (imageId : oid) (aiResult_status : string).

Record response := { code : nat; resp_body : body }.

Definition resp (c : nat) (b : body) : response := {| code := c; resp_body := b |}.

(** An uncaught exception: Flask answers 500. *)
Definition internal_error : response :=
  resp 500 (Message "Internal Server Error").

(** Outcome of [dateutil.parser.parse(s).isoformat()]: the ISO string, a
    [ValueError] (its [ParserError]), or another exception. *)
Inductive parse_outcome :=
| Parsed (iso : string)
| ParseValueError
| ParseOtherError.

(** [sort(key, -1)]: stable insertion sort, descending on a string key
    compared bytewise. *)
Section Sort.
Variable A : Type.
Variable key : A -> string.

Fixpoint insert_desc (x : A) (l : list A) : list A :=
  match l with
  | [] => [x]
  | y :: t =>
      match String.compare (key x) (key y) with
      | Gt => x :: y :: t
      | _ => y :: insert_desc x t
      end
  end.

Fixpoint sort_desc (l : list A) : list A :=
  match l with
  | [] => []
  | x :: t => insert_desc x (sort_desc t)
  end.
End Sort.

Arguments insert_desc {A} key x l.
Arguments sort_desc {A} key l.

(** [os.path.splitext] (posixpath) on a list of characters. *)
Fixpoint rfind_aux (c : ascii) (l : list ascii) (i acc : Z) : Z :=
  match l with
  | [] => acc
  | x :: t => rfind_aux c t (i + 1) (if Ascii.eqb x c then i else acc)
  end.

Definition rfind (c : ascii) (l : list ascii) : Z := rfind_aux c l 0 (-1).

Definition splitext_list (p : list ascii) : list ascii * list ascii :=
  let sepIndex := rfind "/"%char p in
  let dotIndex := rfind "."%char p in
  if (sepIndex <? dotIndex)%Z then
    let start := Z.to_nat (sepIndex + 1) in
    let stem := firstn (Z.to_nat dotIndex - start) (skipn start p) in
    if existsb (fun c => negb (Ascii.eqb c "."%char)) stem
    then (firstn (Z.to_nat dotIndex) p, skipn (Z.to_nat dotIndex) p)
    else (p, [])
  else (p, []).

Definition splitext (p : string) : string * string :=
  let (a, b) := splitext_list (list_ascii_of_string p) in
  (string_of_list_ascii a, string_of_list_ascii b).

(** [os.path.join(a, b)] (posixpath) for two components. *)
Definition ends_with_sep (a : string) : bool :=
  match rev (list_ascii_of_string a) with
  | c :: _ => Ascii.eqb c "/"%char
  | [] => false
  end.

Definition path_join (a b : string) : string :=
  if String.prefix "/" b then b
  else if String.eqb a "" || ends_with_sep a then a ++ b
  else a ++ "/" ++ b.

Definition UPLOAD_FOLDER : string := "uploads".

(** The upload folder after [path] has been written with [c]. *)
Definition write_file (st : db) (path : string) (c : list Byte.byte) : db :=
  {| patients := patients st; appointments := appointments st;
     images := images st;
     files := (path, c) :: filter (fun '(q, _) => negb (String.eqb q path)) (files st);
     next_oid := next_oid st |}.

Definition file_at (st : db) (path : string) : option (list Byte.byte) :=
  match find (fun '(q, _) => String.eqb q path) (files st) with
  | Some (_, c) => Some c
  | None => None
  end.

(** Uploaded file part of a multipart request ([werkzeug] FileStorage). *)
Record file_storage := { fs_filename : string; fs_content : list Byte.byte }.

Record upload_request := {
  req_files : list (string * file_storage);
  req_form : dict }.

Fixpoint files_get (k : string) (l : list (string * file_storage))
  : option file_storage :=
  match l with
  | [] => None
  | (k', v) :: t => if String.eqb k k' then Some v else files_get k t
  end.

(** [images_collection.update_one({"_id": o}, {"$set": ...})] of the
    upload mock. *)
Definition mark_processed (r : image_record) : image_record :=
  {| im_patientId := im_patientId r; im_patientName := im_patientName r;
     im_filename := im_filename r; im_filepath := im_filepath r;
     im_upload_time := im_upload_time r; im_file_size := im_file_size r;
     im_status := "Processed";
     im_ai_result := {| ai_status := "Pending Review";
                        ai_prediction := "Low-Risk ROP Stage 1";
                        ai_probability := 95 # 100 |} |}.

Definition update_image (st : db) (o : oid) (f : image_record -> image_record) : db :=
  {| patients := patients st; appointments := appointments st;
     images := map (fun '(o', r) => if Nat.eqb o' o then (o', f r) else (o', r))
                   (images st);
     files := files st; next_oid := next_oid st |}.

(** The high-risk labels of the doctor review query. *)
Definition review_labels : list string :=
  ["High-Risk ROP Stage 3"; "Urgent Referral"; "Severe ROP"].

Definition review_query (r : image_record) : bool :=
  String.eqb (ai_status (im_ai_result r)) "Pending Review"
  && existsb (String.eqb (ai_prediction (im_ai_result r))) review_labels
  && negb (String.eqb (im_status r) "Reviewed").

(** Answer of [get_images_for_review]: the hardcoded placeholder record
    ([_id] "mock_review_1", patient N012, created at [now]) when no stored
    record matches, the matching records newest first otherwise. *)
Inductive review_response :=
| ReviewPlaceholder (now : string)
| ReviewRecords (l : list (oid * image_record)).

Definition get_images_for_review (st : db) (now : string) : review_response :=
  let matching := filter (fun '(_, r) => review_query r) (images st) in
  match matching with
  | [] => ReviewPlaceholder now
  | _ => ReviewRecords (sort_desc (fun '(_, r) => im_upload_time r) matching)
  end.

(** [get_all_patients]: every patient, newest [created_at] first. *)
Definition get_all_patients (st : db) : list (oid * patient) :=
  sort_desc (fun '(_, p) => pa_created_at p) (patients st).

(** [sort(key, 1)]: stable insertion sort, ascending on a string key. *)
Section SortAsc.
Variable A : Type.
Variable key : A -> string.

Fixpoint insert_asc (x : A) (l : list A) : list A :=
  match l with
  | [] => [x]
  | y :: t =>
      match String.compare (key x) (key y) with
      | Lt => x :: y :: t
      | _ => y :: insert_asc x t
      end
  end.

Fixpoint sort_asc (l : list A) : list A :=
  match l with
  | [] => []
  | x :: t => insert_asc x (sort_asc t)
  end.
End SortAsc.

Arguments insert_asc {A} key x l.
Arguments sort_asc {A} key l.

(** [GET /api/images/history]: [find().sort("upload_time", -1).limit(10)]. *)
Definition get_upload_history (st : db) : list (oid * image_record) :=
  firstn 10 (sort_desc (fun '(_, r) => im_upload_time r) (images st)).

(** [GET /api/appointments/today]. [today_iso] and [tomorrow_iso] are the
    [isoformat()] of midnight today and of midnight tomorrow; the query
    compares them with the stored strings bytewise. *)
Definition get_appointments_today (st : db) (today_iso tomorrow_iso : string)
  : list (oid * appointment) :=
  let in_range '(_, a) :=
    negb (match String.compare (ap_datetime a) today_iso with Lt => true | _ => false end)
    && match String.compare (ap_datetime a) tomorrow_iso with Lt => true | _ => false end in
  sort_asc (fun '(_, a) => ap_datetime a) (filter in_range (appointments st)).

(** BSON values met by the [$gte] filters of [get_stats]: the stored
    [isoformat()] strings and the [datetime] [today] (milliseconds). MongoDB
    compares only values of the same BSON type; a string never matches a
    date bound. *)
Inductive bson :=
| BString (s : string)
| BDate (ms : Z).

Definition bson_gte (v q : bson) : bool :=
  match v, q with
  | BString a, BString b =>
      negb (match String.compare a b with Lt => true | _ => false end)
  | BDate a, BDate b => (b <=? a)%Z
  | _, _ => false
  end.

Definition count_documents {A} (f : A -> bool) (l : list (oid * A)) : nat :=
  List.length (filter (fun '(_, x) => f x) l).

Record stats := {
  totalPatients : nat;
  appointmentsToday : nat;
  pendingReview : nat;
  totalReviewed : nat;
  imagesUploadedToday : nat;
  totalUploads : nat;
  pendingProcessing : nat;
  averageUploadTime : nat }.

(** [GET /api/stats]; [today] is midnight today as a [datetime]. *)
Definition get_stats (st : db) (today : Z) : stats :=
  let appointments_today :=
    count_documents (fun a => bson_gte (BString (ap_datetime a)) (BDate today))
                    (appointments st) in
  let total_patients := List.length (patients st) in
  let pending_review :=
    count_documents (fun r =>
      String.eqb (ai_status (im_ai_result r)) "Pending Review"
      && existsb (String.eqb (ai_prediction (im_ai_result r)))
                 ["High-Risk ROP Stage 3"; "Urgent Referral"]) (images st) in
  let total_reviewed :=
    count_documents (fun r => String.eqb (im_status r) "Reviewed") (images st) in
  let images_today :=
    count_documents (fun r => bson_gte (BString (im_upload_time r)) (BDate today))
                    (images st) in
  let total_uploads := List.length (images st) in
  let pending_processing :=
    count_documents (fun r => String.eqb (im_status r) "Uploaded"
                              && String.eqb (ai_status (im_ai_result r)) "Processing")
                    (images st) in
  {| totalPatients := total_patients; appointmentsToday := appointments_today;
     pendingReview := pending_review; totalReviewed := total_reviewed;
     imagesUploadedToday := images_today; totalUploads := total_uploads;
     pendingProcessing := pending_processing; averageUploadTime := 45 |}.

Section Endpoints.

(** Python's [str.upper] (full Unicode case mapping: "\u00e9" becomes
    "\u00c9", the long s becomes "S", "\u00df" becomes "SS") on the strings
    of the model. *)
Variable upper : string -> string.

(** [dateutil.parser.parse(s).isoformat()], [float(s)] ([None] when it
    raises [ValueError]) and the size formatting
    [f"{size / (1024 * 1024):.2f} MB"]. *)
Variable dt_parse : string -> parse_outcome.
Variable py_float : string -> option Q.
Variable format_mb : nat -> string.

(** Whether [open(path, "wb")] succeeds in the server's directory tree: the
    directory part of [path] exists and is writable and [path] is not a
    directory. The app creates no directory after start-up, so this does
    not depend on the files it writes. *)
Variable can_save : string -> bool.

Definition get_patient_details (st : db) (nid : string) : option patient_details :=
  match find_patient st (upper nid) with
  | Some (o, p) =>
      Some {| patientName := name p; patientId := neonate_id p; pd_id := o |}
  | None => None
  end.

(** [file.save(path)] opens [path] for writing, then copies the upload into
    it; when opening raises ([None]) nothing has been written. *)
Definition save_file (st : db) (path : string) (c : list Byte.byte) : option db :=
  if can_save path then Some (write_file st path c) else None.

(** [POST /api/patients]. [now] is [datetime.now().isoformat()]. *)
Definition add_patient (st : db) (data : dict) (now : string) : db * response :=
  if negb (all_fields ["name"; "neonate_id"; "birth_date"; "parent_name"] data)
  then (st, resp 400 (Message "Missing required patient fields."))
  else
    let nid := dict_at "neonate_id" data in
    match find_patient st (upper nid) with
    | Some _ => (st, resp 409 (Message ("Patient ID " ++ nid ++ " already exists.")))
    | None =>
        match dt_parse (dict_at "birth_date" data) with
        | ParseValueError =>
            (st, resp 400 (Message "Invalid date or number format provided."))
        | ParseOtherError => (st, internal_error)
        | Parsed bd =>
            let w := match dict_get "weight" data with
                     | Some v => if String.eqb v "" then Some None
                                 else option_map Some (py_float v)
                     | None => Some None
                     end in
            match w with
            | None => (st, resp 400 (Message "Invalid date or number format provided."))
            | Some wt =>
                let new_patient :=
                  {| neonate_id := upper nid; name := dict_at "name" data;
                     birth_date := bd;
                     gestational_age := dict_get "gestational_age" data;
                     weight := wt; parent_name := dict_at "parent_name" data;
                     parent_phone := dict_get "parent_phone" data;
                     parent_email := dict_get "parent_email" data;
                     pa_status := "Active"; pa_created_at := now |} in
                let (st', o) := insert_patient st new_patient in
                (st', resp 201 (Created "Patient record created successfully." o))
            end
        end
    end.

(** [POST /api/appointments]. The bare [except:] turns every parse failure
    into 400. *)
Definition schedule_appointment (st : db) (data : dict) (now : string)
  : db * response :=
  if negb (all_fields ["patientId"; "datetime"; "type"] data)
  then (st, resp 400 (Message
          "Missing required appointment fields (patientId, datetime, type)."))
  else
    let pid := dict_at "patientId" data in
    match get_patient_details st pid with
    | None => (st, resp 404 (Message ("Patient ID " ++ pid ++ " not found.")))
    | Some det =>
        match dt_parse (dict_at "datetime" data) with
        | Parsed iso =>
            let new_appointment :=
              {| ap_patientId := patientId det; ap_patientName := patientName det;
                 ap_datetime := iso; ap_type := dict_at "type" data;
                 ap_status := "Scheduled"; ap_created_at := now |} in
            let (st', o) := insert_appointment st new_appointment in
            (st', resp 201 (Created "Appointment scheduled successfully." o))
        | _ => (st, resp 400 (Message "Invalid datetime format."))
        end
    end.

(** [POST /api/images/upload]. [now] is the clock and [token] the value of
    [uuid.uuid4().hex] for this request. *)
Definition upload_image (st : db) (req : upload_request) (now token : string)
  : db * response :=
  match files_get "file" (req_files req) with
  | None => (st, resp 400 (Message "No file part in the request."))
  | Some file =>
      match dict_get "patientId" (req_form req) with
      | None => (st, resp 400 (Message "Patient ID is required in the form data."))
      | Some pid =>
          let patient_id := upper pid in
          if String.eqb (fs_filename file) "" then
            (st, resp 400 (Message "No selected file."))
          else
            match get_patient_details st patient_id with
            | None =>
                (st, resp 404 (Message ("Patient ID " ++ patient_id ++ " not found.")))
            | Some det =>
                let extension := snd (splitext (fs_filename file)) in
                let filename := patient_id ++ "_" ++ token ++ extension in
                let filepath := path_join UPLOAD_FOLDER filename in
                match save_file st filepath (fs_content file) with
                | None => (st, internal_error)
                | Some st1 =>
                    (* [os.path.getsize(filepath)]: the file just written *)
                    match file_at st1 filepath with
                    | None => (st1, internal_error)
                    | Some saved =>
                        let ai_status_ := "Processing" in
                        let new_image_record :=
                          {| im_patientId := patient_id;
                             im_patientName := patientName det;
                             im_filename := filename; im_filepath := filepath;
                             im_upload_time := now;
                             im_file_size := format_mb (List.length saved);
                             im_status := "Uploaded";
                             im_ai_result := {| ai_status := ai_status_;
                                                ai_prediction := "Unknown";
                                                ai_probability := 0 |} |} in
                        let (st2, o) := insert_image st1 new_image_record in
                        let st3 := update_image st2 o mark_processed in
                        (st3, resp 201 (UploadAccepted
                           "Image uploaded successfully and sent for AI processing."
                           o "Processing"))
                    end
                end
            end
      end
  end.

(** The writes the HTTP surface can make, and the states reachable from an
    empty database. *)
Inductive step : db -> db -> Prop :=
| StepAddPatient st data now : step st (fst (add_patient st data now))
| StepSchedule st data now : step st (fst (schedule_appointment st data now))
| StepUpload st req now token : step st (fst (upload_image st req now token)).

Inductive reachable : db -> Prop :=
| reach_empty : reachable empty_db
| reach_step st st' : reachable st -> step st st' -> reachable st'.

End Endpoints.

End App.

(* ------------------------------------------------------------------------- *)
(** * Concrete inputs *)

Module Fixtures.
Import AiService.

(** A stand-in for PIL that decodes nothing, and one that decodes every
    byte string to a single empty image. *)
Definition open_none (_ : list Byte.byte) : option unit := None.
Definition open_any (_ : list Byte.byte) : option unit := Some tt.
Definition resize_id (i : unit) (_ : nat * nat) : unit := i.
Definition array_empty (_ : unit) : list (list (list Z)) := [].

(** Models with a fixed output row. *)
Definition model_row (v : list Q) : keras_model :=
  {| predict := fun _ => Some [v] |}.

Definition five_class_row : list Q := [0; 0; 0; 0; 1].
Definition logit_row : list Q := [2].
Definition softmax_row : list Q := [1 # 10; 4 # 10; 4 # 10; 1 # 10].

Definition five_class_model : keras_model := model_row five_class_row.
Definition logit_model : keras_model := model_row logit_row.
Definition softmax_model : keras_model := model_row softmax_row.

(** Stand-ins for dateutil, [float] and the size formatting, a patient
    form and an upload request. *)
Definition parse_iso (s : string) : App.parse_outcome := App.Parsed s.
Definition float_none (_ : string) : option Q := None.
Definition mb_fmt (_ : nat) : string := "0.00 MB".

(** [str.upper] on ASCII text (where it maps exactly a-z to A-Z), and a
    directory tree in which every save succeeds. *)
Definition upper_char (c : ascii) : ascii :=
  let n := nat_of_ascii c in
  if (97 <=? n)%nat && (n <=? 122)%nat then ascii_of_nat (n - 32) else c.

Fixpoint upper_ascii (s : string) : string :=
  match s with
  | EmptyString => EmptyString
  | String c t => String (upper_char c) (upper_ascii t)
  end.

Definition save_ok (_ : string) : bool := true.

Definition patient_form (nid : string) : App.dict :=
  [("name", "Baby Doe"); ("neonate_id", nid); ("birth_date", "2024-01-01");
   ("parent_name", "John Doe")].

Definition db_with (nid : string) : App.db :=
  fst (App.add_patient upper_ascii parse_iso float_none App.empty_db (patient_form nid)
         "2024-01-02T09:00:00").

Definition scan_upload (pid : string) : App.upload_request :=
  {| App.req_files := [("file", {| App.fs_filename := "scan.png";
                                   App.fs_content := [Byte.x00] |})];
     App.req_form := [("patientId", pid)] |}.

(** The patient record [db_with nid] holds. *)
Definition baby_doe (nid : string) : App.patient :=
  {| App.neonate_id := nid; App.name := "Baby Doe"; App.birth_date := "2024-01-01";
     App.gestational_age := None; App.weight := None;
     App.parent_name := "John Doe"; App.parent_phone := None;
     App.parent_email := None; App.pa_status := "Active";
     App.pa_created_at := "2024-01-02T09:00:00" |}.

(** An upload for patient N001, and one for a patient registered as "/n",
    both in a directory tree where the save succeeds. *)
Definition upload_n001 : App.db * App.response :=
  App.upload_image upper_ascii mb_fmt save_ok (db_with "N001") (scan_upload "n001")
    "2024-01-02T10:00:00" "abc".

Definition upload_slash : App.db * App.response :=
  App.upload_image upper_ascii mb_fmt save_ok (db_with "/n") (scan_upload "/n")
    "2024-01-02T10:00:00" "abc".


(** A stand-in for [np.array] giving one row of one RGB pixel. *)
Definition array_pixel (_ : unit) : list (list (list Z)) := [[[0%Z; 128%Z; 255%Z]]].

(** A follow-up appointment for N001, booked after the upload. *)
Definition appointment_n001 : App.dict :=
  [("patientId", "n001"); ("datetime", "2024-01-02T11:00:00");
   ("type", "Follow-up Scan")].

Definition db_full : App.db :=
  fst (App.schedule_appointment upper_ascii parse_iso (fst upload_n001) appointment_n001
         "2024-01-02T10:30:00").

End Fixtures.

(* ------------------------------------------------------------------------- *)
(** * Properties of ai_service.py *)

Module AiProofs.
Import AiService.

Lemma Qlt_bool_iff (a b : Q) : Qlt_bool a b = true <-> a < b.
Proof.
  unfold Qlt_bool. rewrite negb_true_iff. split.
  - intros H. apply Qnot_le_lt. intros H'. apply Qle_bool_iff in H'. congruence.
  - intros H. destruct (Qle_bool b a) eqn:E; [|reflexivity].
    apply Qle_bool_iff in E. exfalso. exact (Qlt_not_le _ _ H E).
Qed.

Lemma Qlt_bool_false (a b : Q) : Qlt_bool a b = false -> b <= a.
Proof.
  unfold Qlt_bool. rewrite negb_false_iff. apply Qle_bool_iff.
Qed.

(** ** argmax returns the first index of a maximum *)

Lemma skipn_cons_nth {A} (v : list A) i x t :
  skipn i v = x :: t -> nth_error v i = Some x /\ skipn (S i) v = t.
Proof.
  revert v. induction i as [|i IH]; intros [|a v] H; simpl in *; try discriminate.
  - inversion H; subst. split; [reflexivity|]. destruct t; reflexivity.
  - apply IH in H. exact H.
Qed.

Lemma skipn_nil_nth {A} (v : list A) i j :
  skipn i v = [] -> (i <= j)%nat -> nth_error v j = None.
Proof.
  intros H Hle. apply nth_error_None.
  assert (List.length (skipn i v) = 0%nat) by (rewrite H; reflexivity).
  rewrite length_skipn in H0. lia.
Qed.

Lemma argmax_from_sound (v : list Q) : forall l i bi b,
  skipn i v = l ->
  (bi < i)%nat ->
  nth_error v bi = Some b ->
  (forall j z, (j < i)%nat -> nth_error v j = Some z -> z <= b) ->
  (forall j z, (j < bi)%nat -> nth_error v j = Some z -> z < b) ->
  exists y, first_max v (argmax_from i bi b l) y.
Proof.
  induction l as [|x t IH]; intros i bi b Hs Hlt Hb Hle Hstrict; simpl.
  - exists b. split; [exact Hb|]. split; [|exact Hstrict].
    intros j z Hj. destruct (Nat.lt_ge_cases j i) as [H|H].
    + eauto.
    + rewrite (skipn_nil_nth v i j Hs H) in Hj. discriminate.
  - destruct (skipn_cons_nth v i x t Hs) as [Hx Ht].
    destruct (Qlt_bool b x) eqn:E.
    + apply Qlt_bool_iff in E. apply IH; auto.
      * intros j z Hj Hz. destruct (Nat.eq_dec j i) as [->|Hne].
        -- rewrite Hx in Hz. inversion Hz; subst. apply Qle_refl.
        -- apply Qlt_le_weak. apply Qle_lt_trans with b; [|exact E].
           apply (Hle j); [lia|exact Hz].
      * intros j z Hj Hz. apply Qle_lt_trans with b; [|exact E].
        apply (Hle j); [lia|exact Hz].
    + apply Qlt_bool_false in E. apply IH; auto.
      intros j z Hj Hz. destruct (Nat.eq_dec j i) as [->|Hne].
      * rewrite Hx in Hz. inversion Hz; subst. exact E.
      * apply (Hle j); [lia|exact Hz].
Qed.

Lemma argmax_sound (v : list Q) k :
  argmax v = Some k -> exists y, first_max v k y.
Proof.
  destruct v as [|x t]; simpl; intros H; [discriminate|].
  inversion H; subst. apply argmax_from_sound; simpl; auto.
  - intros j z Hj Hz. destruct j; [|lia]. simpl in Hz. inversion Hz; subst.
    apply Qle_refl.
  - intros j z Hj. lia.
Qed.

Lemma first_max_unique (v : list Q) k k' y y' :
  first_max v k y -> first_max v k' y' -> k = k'.
Proof.
  intros [Hk [Hmax Hs]] [Hk' [Hmax' Hs']].
  destruct (Nat.lt_total k k') as [H|[H|H]]; auto; exfalso.
  - pose proof (Hs' k y H Hk). pose proof (Hmax k' y' Hk').
    exact (Qlt_not_le _ _ H0 H1).
  - pose proof (Hs k' y' H Hk'). pose proof (Hmax' k y Hk).
    exact (Qlt_not_le _ _ H0 H1).
Qed.

Lemma argmax_first_max (v : list Q) k y :
  first_max v k y -> argmax v = Some k.
Proof.
  intros Hf. destruct v as [|x t] eqn:Ev.
  - destruct Hf as [Hk _]. destruct k; discriminate.
  - rewrite <- Ev in Hf.
    assert (Ha : argmax v = Some (argmax_from 1 0 x t)) by (subst; reflexivity).
    destruct (argmax_sound v _ Ha) as [y' Hf'].
    rewrite Ev in Ha. rewrite Ha. f_equal.
    exact (first_max_unique v _ _ _ _ Hf' Hf).
Qed.

(** ** np.max *)

Lemma Qmax_choice (a b : Q) : Qmax a b = a \/ Qmax a b = b.
Proof. unfold Qmax, GenericMinMax.gmax. destruct (Qcompare a b); auto. Qed.

Lemma fold_Qmax_in (t : list Q) : forall x, In (fold_left Qmax t x) (x :: t).
Proof.
  induction t as [|y t IH]; intros x; simpl; [auto|].
  destruct (IH (Qmax x y)) as [E|E]; [|simpl; auto].
  destruct (Qmax_choice x y) as [E'|E']; rewrite <- E, E'; simpl; auto.
Qed.

Lemma fold_Qmax_init (t : list Q) : forall x, x <= fold_left Qmax t x.
Proof.
  induction t as [|y t IH]; intros x; simpl; [apply Qle_refl|].
  apply Qle_trans with (Qmax x y); [apply Q.le_max_l|apply IH].
Qed.

Lemma fold_Qmax_ge (t : list Q) : forall x z, In z (x :: t) -> z <= fold_left Qmax t x.
Proof.
  induction t as [|y t IH]; intros x z Hz.
  - destruct Hz as [->|[]]. apply Qle_refl.
  - simpl. destruct Hz as [->|[->|Hz]].
    + apply Qle_trans with (Qmax z y); [apply Q.le_max_l|apply fold_Qmax_init].
    + apply Qle_trans with (Qmax x z); [apply Q.le_max_r|apply fold_Qmax_init].
    + apply IH. right. exact Hz.
Qed.

Lemma np_max_some (rows : list (list Q)) p :
  np_max rows = Some p ->
  In p (List.concat rows) /\ (forall z, In z (List.concat rows) -> z <= p).
Proof.
  unfold np_max. destruct (List.concat rows) as [|x t]; intros H; [discriminate|].
  inversion H; subst. split; [apply fold_Qmax_in|]. intros z Hz.
  apply fold_Qmax_ge. exact Hz.
Qed.

(** ** Rounding *)

Lemma Qlt_bool_comp_l (a a' c : Q) : a == a' -> Qlt_bool a c = Qlt_bool a' c.
Proof.
  intros H. destruct (Qlt_bool a c) eqn:E1, (Qlt_bool a' c) eqn:E2; auto.
  - apply Qlt_bool_iff in E1. apply Qlt_bool_false in E2. rewrite H in E1.
    exfalso. exact (Qlt_not_le _ _ E1 E2).
  - apply Qlt_bool_iff in E2. apply Qlt_bool_false in E1. rewrite <- H in E2.
    exfalso. exact (Qlt_not_le _ _ E2 E1).
Qed.

Lemma Qlt_bool_comp_r (a c c' : Q) : c == c' -> Qlt_bool a c = Qlt_bool a c'.
Proof.
  intros H. destruct (Qlt_bool a c) eqn:E1, (Qlt_bool a c') eqn:E2; auto.
  - apply Qlt_bool_iff in E1. apply Qlt_bool_false in E2. rewrite H in E1.
    exfalso. exact (Qlt_not_le _ _ E1 E2).
  - apply Qlt_bool_iff in E2. apply Qlt_bool_false in E1. rewrite <- H in E2.
    exfalso. exact (Qlt_not_le _ _ E2 E1).
Qed.

Lemma round_half_even_comp (p q : Q) : p == q -> round_half_even p = round_half_even q.
Proof.
  intros H. unfold round_half_even.
  assert (Hf : Qfloor p = Qfloor q) by (apply Qfloor_comp; exact H).
  rewrite Hf.
  assert (Hr : p - inject_Z (Qfloor q) == q - inject_Z (Qfloor q)) by (rewrite H; reflexivity).
  rewrite (Qlt_bool_comp_l _ _ _ Hr), (Qlt_bool_comp_r _ _ _ Hr).
  reflexivity.
Qed.

Lemma round4_comp (p q : Q) : p == q -> round4 p = round4 q.
Proof.
  intros H. unfold round4. f_equal. apply round_half_even_comp. rewrite H. reflexivity.
Qed.

Lemma round_half_even_range (q : Q) (n : Z) :
  0 <= q -> q <= inject_Z n -> (0 <= round_half_even q <= n)%Z.
Proof.
  intros H0 Hn. unfold round_half_even.
  set (f := Qfloor q).
  assert (Hle : inject_Z f <= q) by apply Qfloor_le.
  assert (Hlt : q < inject_Z (f + 1)) by apply Qlt_floor.
  assert (Hf0 : (0 <= f)%Z).
  { assert (H1 : inject_Z 0 < inject_Z (f + 1)) by (apply Qle_lt_trans with q; auto).
    rewrite <- Zlt_Qlt in H1. lia. }
  assert (Hfn : (f <= n)%Z).
  { rewrite Zle_Qle. apply Qle_trans with q; auto. }
  destruct (Qlt_bool (q - inject_Z f) (1 # 2)) eqn:E1; [lia|].
  apply Qlt_bool_false in E1.
  assert (Hgt : inject_Z f < q).
  { apply Qnot_le_lt. intros Hq.
    assert (q - inject_Z f <= 0).
    { apply (Qplus_le_l _ _ (inject_Z f)). ring_simplify. exact Hq. }
    assert (0 < 1 # 2) by reflexivity.
    apply (Qlt_not_le 0 (1 # 2)); auto. apply Qle_trans with (q - inject_Z f); auto. }
  assert (Hfn' : (f < n)%Z).
  { rewrite Zlt_Qlt. apply Qlt_le_trans with q; auto. }
  destruct (Qlt_bool (1 # 2) (q - inject_Z f)); [lia|].
  destruct (Z.even f); lia.
Qed.

Lemma round4_unit (q : Q) : 0 <= q <= 1 -> 0 <= round4 q <= 1.
Proof.
  intros [H0 H1].
  assert (Hz : (0 <= round_half_even (q * 10000) <= 10000)%Z).
  { apply round_half_even_range.
    - apply Qmult_le_0_compat; [exact H0|discriminate].
    - apply Qle_trans with (1 * 10000); [|apply Qle_refl].
      apply Qmult_le_compat_r; [exact H1|discriminate]. }
  unfold round4. unfold Qle; simpl. lia.
Qed.

Lemma argmax_axis1_rows (rows : list (list Q)) :
  Forall (fun r => r <> []) rows -> exists is_, argmax_axis1 rows = Some is_.
Proof.
  induction 1 as [|r rs Hr _ [is_ IH]]; [exists []; reflexivity|].
  destruct r as [|x t]; [contradiction|]. simpl. rewrite IH. eexists. reflexivity.
Qed.

Lemma np_max_is_max (rows : list (list Q)) p :
  List.concat rows <> [] -> is_max (List.concat rows) p ->
  exists p', np_max rows = Some p' /\ p' == p.
Proof.
  intros Hne [Hin Hge].
  destruct (np_max rows) as [p'|] eqn:Em.
  - exists p'. split; [reflexivity|].
    destruct (np_max_some rows p' Em) as [Hin' Hge'].
    apply Qle_antisym; [apply Hge; exact Hin'|apply Hge'; exact Hin].
  - unfold np_max in Em. destruct (List.concat rows); [contradiction|discriminate].
Qed.

(** ** run_inference *)

Section Claims.

Variable image : Type.
Variable pil_open_rgb : list Byte.byte -> option image.
Variable pil_resize : image -> nat * nat -> image.
Variable np_array : image -> list (list (list Z)).

Local Abbreviation preprocess := (preprocess_image image pil_open_rgb pil_resize np_array).
Local Abbreviation run_inf := (run_inference image pil_open_rgb pil_resize np_array).
Local Abbreviation calls_of := (run_calls image pil_open_rgb pil_resize np_array).
Local Abbreviation process := (run_process image pil_open_rgb pil_resize np_array).

Lemma preprocess_none (b : list Byte.byte) :
  preprocess b = None <-> pil_open_rgb b = None.
Proof.
  unfold preprocess_image. destruct (pil_open_rgb b); split; congruence.
Qed.

Lemma run_inference_loaded s a b m :
  fst (load_model s a) = ModelLoaded m ->
  snd (run_inf s a b) =
    match preprocess b with
    | None => preprocessing_error
    | Some x => predict_block m x
    end.
Proof.
  unfold run_inference. destruct (load_model s a) as [s' t]. simpl. intros ->.
  simpl. destruct (preprocess b); reflexivity.
Qed.

Lemma run_inference_unloaded s a b :
  model_truthy (fst (load_model s a)) = false -> snd (run_inf s a b) = model_error.
Proof.
  unfold run_inference. destruct (load_model s a) as [s' t]. simpl. intros ->.
  reflexivity.
Qed.

Lemma run_inference_state s a b : fst (run_inf s a b) = fst (load_model s a).
Proof.
  unfold run_inference. destruct (load_model s a) as [s' t]. simpl.
  destruct (model_truthy s'); [|reflexivity]. destruct s'; simpl; auto.
  destruct (preprocess b); reflexivity.
Qed.

Lemma load_model_settled s a :
  s <> ModelNone -> load_model s a = (s, false).
Proof. destruct s; simpl; congruence. Qed.

Lemma run_calls_false calls :
  calls_of ModelFalse calls = (repeat model_error (List.length calls), 0%nat).
Proof.
  induction calls as [|[a b] rest IH]; [reflexivity|].
  simpl. rewrite IH. reflexivity.
Qed.

Lemma run_calls_loaded m calls : snd (calls_of (ModelLoaded m) calls) = 0%nat.
Proof.
  induction calls as [|[a b] rest IH]; [reflexivity|].
  simpl. pose proof (run_inference_state (ModelLoaded m) a b) as Hs. simpl in Hs.
  destruct (run_inf (ModelLoaded m) a b) as [s' r]. simpl in Hs. subst s'.
  destruct (calls_of (ModelLoaded m) rest) as [rs n]. simpl in *. exact IH.
Qed.

Lemma run_calls_settled s calls :
  s <> ModelNone -> snd (calls_of s calls) = 0%nat.
Proof.
  destruct s; intros H; [congruence| |apply run_calls_loaded].
  rewrite run_calls_false. reflexivity.
Qed.

Lemma run_calls_at_most_one s calls : (snd (calls_of s calls) <= 1)%nat.
Proof.
  destruct calls as [|[a b] rest]; simpl; [lia|].
  pose proof (run_inference_state s a b) as Hs.
  destruct (run_inf s a b) as [s' r]. simpl in Hs.
  assert (Hs' : s' <> ModelNone).
  { subst s'. destruct s; simpl; [destruct a|..]; discriminate. }
  pose proof (run_calls_settled s' rest Hs') as H0.
  destruct (calls_of s' rest) as [rs n]. simpl in H0. subst n.
  simpl. destruct (snd (load_model s a)); lia.
Qed.

Lemma predict_block_processed m x :
  status (predict_block m x) = "processed" ->
  exists rows idx p label,
    predict m x = Some rows /\ np_max rows = Some p /\
    nth_error class_labels idx = Some label /\
    predict_block m x = {| prediction := label; probability := round4 p;
                           status := "processed" |}.
Proof.
  intros H. unfold predict_block in *.
  destruct (predict m x) as [rows|] eqn:Ep; [|discriminate].
  destruct (argmax_axis1 rows) as [[|idx t]|] eqn:Ea; try discriminate.
  destruct (np_max rows) as [p|] eqn:Em; [|discriminate].
  destruct (nth_error class_labels idx) as [label|] eqn:El; [|discriminate].
  exists rows, idx, p, label. rewrite ?Ep, ?Ea, ?Em, ?El. repeat split; reflexivity.
Qed.

(** C2 (amended): for bytes that PIL cannot decode, [run_inference] returns
    the "Preprocessing Error" result when the model is loaded, and the
    "Model Error" result when it is not (the model check comes first); it is
    a total function, so it never raises. *)
Theorem run_inference_undecodable s a b :
  pil_open_rgb b = None ->
  snd (run_inf s a b) =
    if model_truthy (fst (load_model s a)) then preprocessing_error
    else model_error.
Proof.
  intros Hb. apply preprocess_none in Hb.
  destruct (model_truthy (fst (load_model s a))) eqn:Et.
  - destruct (fst (load_model s a)) as [| |m] eqn:El; try discriminate.
    rewrite (run_inference_loaded s a b m El), Hb. reflexivity.
  - apply run_inference_unloaded. exact Et.
Qed.

(** C3: a failed load is cached: from the [False] state every call answers
    "Model Error" and loads nothing; a process whose import-time load fails
    answers "Model Error" to every call; a sequence of calls attempts at
    most one disk load, and a process performs exactly one (at import). *)
Theorem model_load_failure_cached :
  (forall calls, calls_of ModelFalse calls =
                 (repeat model_error (List.length calls), 0%nat)) /\
  (forall b calls, calls_of ModelNone ((None, b) :: calls) =
                   (repeat model_error (S (List.length calls)), 1%nat)) /\
  (forall calls, process None calls =
                 (repeat model_error (List.length calls), 1%nat)) /\
  (forall s calls, (snd (calls_of s calls) <= 1)%nat) /\
  (forall a0 calls, snd (process a0 calls) = 1%nat).
Proof.
  split; [exact run_calls_false|].
  split; [intros b calls; simpl; rewrite run_calls_false; reflexivity|].
  split; [intros calls; unfold run_process; simpl; rewrite run_calls_false; reflexivity|].
  split; [exact run_calls_at_most_one|].
  intros a0 calls. unfold run_process.
  destruct a0 as [m|]; simpl.
  - pose proof (run_calls_loaded m calls) as H.
    destruct (calls_of (ModelLoaded m) calls) as [rs n]. simpl in *. subst. reflexivity.
  - rewrite run_calls_false. reflexivity.
Qed.

(** C4 (amended): when the model is loaded, preprocessing succeeds and the
    model returns rows [v :: rest] (non-empty, as the rows of a 2-D array
    are), let [i] be the first index of a maximum [y] of the first row and
    [p] the largest entry of the whole output. If [i] is inside the
    four-entry label list, the result is that label, [p] rounded to 4
    decimals, and status "processed"; otherwise the [IndexError] is caught
    and the result is "Inference Exception". For a single output row [p]
    rounds as [y] does. *)
Theorem run_inference_processed_argmax s a b m x v rest i y p :
  fst (load_model s a) = ModelLoaded m ->
  preprocess b = Some x ->
  predict m x = Some (v :: rest) ->
  Forall (fun r => r <> []) rest ->
  first_max v i y ->
  is_max (List.concat (v :: rest)) p ->
  ((i < 4)%nat ->
     snd (run_inf s a b) =
       {| prediction := nth i class_labels ""; probability := round4 p;
          status := "processed" |}) /\
  ((4 <= i)%nat -> snd (run_inf s a b) = inference_exception) /\
  (rest = [] -> round4 p = round4 y).
Proof.
  intros Hl Hp Hm Hrows Hf Hmax.
  assert (Hv : v <> []) by (destruct Hf as [Hy _]; destruct v, i; discriminate).
  assert (Hne : List.concat (v :: rest) <> []).
  { simpl. destruct v; [contradiction|discriminate]. }
  destruct (np_max_is_max _ p Hne Hmax) as (p' & Hp' & Heq).
  destruct (argmax_axis1_rows rest Hrows) as [is_ Hrest].
  assert (Hres : snd (run_inf s a b) =
                   match nth_error class_labels i with
                   | Some label => {| prediction := label; probability := round4 p;
                                      status := "processed" |}
                   | None => inference_exception
                   end).
  { rewrite (run_inference_loaded s a b m Hl), Hp.
    unfold predict_block. rewrite Hm. simpl.
    rewrite (argmax_first_max v i y Hf), Hrest, Hp'.
    rewrite (round4_comp p' p Heq). reflexivity. }
  split; [|split].
  - intros Hi. rewrite Hres. destruct i as [|[|[|[|i]]]]; [reflexivity..|lia].
  - intros Hi. rewrite Hres.
    assert (Hn : nth_error class_labels i = None) by (apply nth_error_None; simpl; lia).
    rewrite Hn. reflexivity.
  - intros ->. apply round4_comp.
    destruct Hf as [Hy [Hle _]]. destruct Hmax as [Hin Hge].
    simpl in Hin, Hge. rewrite app_nil_r in Hin, Hge.
    apply Qle_antisym.
    + destruct (In_nth_error v p Hin) as [j Hj]. exact (Hle j p Hj).
    + apply Hge. exact (nth_error_In v i Hy).
Qed.

(** C5 (amended): a "processed" result always carries one of the four
    configured labels; its probability lies in [0, 1] when every entry of
    the model output does. *)
Theorem run_inference_processed_bounds s a b :
  status (snd (run_inf s a b)) = "processed" ->
  In (prediction (snd (run_inf s a b))) class_labels /\
  (forall m x rows,
     fst (load_model s a) = ModelLoaded m ->
     preprocess b = Some x ->
     predict m x = Some rows ->
     Forall (Forall (fun q => 0 <= q <= 1)) rows ->
     0 <= probability (snd (run_inf s a b)) <= 1).
Proof.
  intros Hs.
  destruct (model_truthy (fst (load_model s a))) eqn:Et.
  2:{ rewrite (run_inference_unloaded s a b Et) in Hs. discriminate. }
  destruct (fst (load_model s a)) as [| |m] eqn:El; try discriminate.
  rewrite (run_inference_loaded s a b m El) in *.
  destruct (preprocess b) as [x|] eqn:Ep; [|discriminate].
  destruct (predict_block_processed m x Hs) as (rows & idx & p & label & Hm & Hmax & Hlab & Hr).
  rewrite Hr. split.
  - exact (nth_error_In class_labels idx Hlab).
  - intros m' x' rows' Hm' Hx' Hrows' Hall. simpl.
    inversion Hm'; subst m'. inversion Hx'; subst x'.
    rewrite Hm in Hrows'. inversion Hrows'; subst rows'.
    apply round4_unit.
    destruct (np_max_some rows p Hmax) as [Hin _].
    apply in_concat in Hin. destruct Hin as [row [Hrow Hp]].
    rewrite Forall_forall in Hall. specialize (Hall row Hrow).
    rewrite Forall_forall in Hall. exact (Hall p Hp).
Qed.

(** C10: when the first output row's argmax lies outside the four-entry
    label list, the [IndexError] is caught and the result is
    "Inference Exception" with probability 0. *)
Theorem run_inference_label_out_of_range s a b m x v rest i :
  fst (load_model s a) = ModelLoaded m ->
  preprocess b = Some x ->
  predict m x = Some (v :: rest) ->
  argmax v = Some i ->
  (4 <= i)%nat ->
  snd (run_inf s a b) = inference_exception.
Proof.
  intros Hl Hp Hm Ha Hi.
  rewrite (run_inference_loaded s a b m Hl), Hp.
  unfold predict_block. rewrite Hm. simpl. rewrite Ha.
  destruct (argmax_axis1 rest); [|reflexivity].
  destruct (np_max (v :: rest)); [|reflexivity].
  assert (Hn : nth_error class_labels i = None) by (apply nth_error_None; simpl; lia).
  rewrite Hn. reflexivity.
Qed.

End Claims.

Import Fixtures.

(** Witness of C2: undecodable bytes with a loaded model. *)
Lemma run_inference_undecodable_witness :
  open_none [] = None /\
  snd (run_inference unit open_none resize_id array_empty
         (ModelLoaded softmax_model) None []) = preprocessing_error.
Proof.
  split; [reflexivity|].
  rewrite (run_inference_undecodable unit open_none resize_id array_empty
             (ModelLoaded softmax_model) None [] eq_refl).
  reflexivity.
Defined.

(** Counterexample to C2 as stated: when the model failed to load,
    undecodable bytes give "Model Error", not "Preprocessing Error". *)
Lemma run_inference_undecodable_no_model :
  open_none [] = None /\
  snd (run_inference unit open_none resize_id array_empty ModelNone None [])
    = model_error /\
  model_error <> preprocessing_error.
Proof. split; [reflexivity|]. split; [reflexivity|]. discriminate. Qed.

(** Witness of C4: the output row ties at indices 1 and 2; index 1 wins. *)
Lemma run_inference_processed_argmax_witness :
  first_max softmax_row 1 (4 # 10) /\
  is_max (List.concat [softmax_row]) (4 # 10) /\
  snd (run_inference unit open_any resize_id array_empty
         (ModelLoaded softmax_model) None []) =
    {| prediction := "Stage 1"; probability := round4 (4 # 10);
       status := "processed" |}.
Proof.
  assert (Hf : first_max softmax_row 1 (4 # 10)).
  { split; [reflexivity|]. split.
    - intros j z H. destruct j as [|[|[|[|j]]]]; simpl in H; inversion H;
        [vm_compute; discriminate ..|destruct j; discriminate].
    - intros j z Hj H. destruct j as [|j]; [|lia]. simpl in H. inversion H.
      reflexivity. }
  assert (Hm : is_max (List.concat [softmax_row]) (4 # 10)).
  { split; [simpl; auto|].
    intros z Hz. simpl in Hz. destruct Hz as [<-|[<-|[<-|[<-|[]]]]];
      vm_compute; discriminate. }
  split; [exact Hf|]. split; [exact Hm|].
  apply (proj1 (run_inference_processed_argmax unit open_any resize_id array_empty
           (ModelLoaded softmax_model) None [] softmax_model [[]] softmax_row [] 1
           (4 # 10) (4 # 10) eq_refl eq_refl eq_refl (Forall_nil _) Hf Hm)).
  lia.
Defined.

(** Counterexample to C4 as stated: a model with five outputs whose maximum
    is the fifth: loaded, preprocessing and prediction succeed, yet the
    result is "Inference Exception", not a "processed" one. *)
Lemma run_inference_five_classes_fails :
  fst (load_model (ModelLoaded five_class_model) None) = ModelLoaded five_class_model /\
  preprocess_image unit open_any resize_id array_empty [] = Some [[]] /\
  predict five_class_model [[]] = Some [five_class_row] /\
  snd (run_inference unit open_any resize_id array_empty
         (ModelLoaded five_class_model) None []) = inference_exception /\
  status inference_exception <> "processed".
Proof.
  split; [reflexivity|]. split; [reflexivity|]. split; [reflexivity|].
  split; [reflexivity|]. discriminate.
Qed.

(** Witness of C5: a softmax-like output. *)
Lemma run_inference_processed_bounds_witness :
  status (snd (run_inference unit open_any resize_id array_empty
                 (ModelLoaded softmax_model) None [])) = "processed" /\
  In (prediction (snd (run_inference unit open_any resize_id array_empty
                        (ModelLoaded softmax_model) None []))) class_labels /\
  0 <= probability (snd (run_inference unit open_any resize_id array_empty
                          (ModelLoaded softmax_model) None [])) <= 1.
Proof.
  destruct (run_inference_processed_bounds unit open_any resize_id array_empty
              (ModelLoaded softmax_model) None [] eq_refl) as [Hin Hb].
  split; [reflexivity|]. split; [exact Hin|].
  apply (Hb softmax_model [[]] [softmax_row]); [reflexivity|reflexivity|reflexivity|].
  repeat constructor; vm_compute; discriminate.
Defined.

(** Counterexample to C5 as stated: a model emitting the raw score 2 gives a
    "processed" result whose probability exceeds 1. *)
Lemma run_inference_logit_out_of_unit :
  status (snd (run_inference unit open_any resize_id array_empty
                 (ModelLoaded logit_model) None [])) = "processed" /\
  ~ (probability (snd (run_inference unit open_any resize_id array_empty
                         (ModelLoaded logit_model) None [])) <= 1).
Proof.
  split; [reflexivity|]. vm_compute. intros H. apply H. reflexivity.
Qed.

(** Witness of C10: the five-output model. *)
Lemma run_inference_label_out_of_range_witness :
  argmax five_class_row = Some 4%nat /\
  snd (run_inference unit open_any resize_id array_empty
         (ModelLoaded five_class_model) None []) = inference_exception.
Proof.
  split; [reflexivity|].
  apply (run_inference_label_out_of_range unit open_any resize_id array_empty
           (ModelLoaded five_class_model) None [] five_class_model [[]]
           five_class_row [] 4); [reflexivity|reflexivity|reflexivity|reflexivity|lia].
Defined.

End AiProofs.

(* ------------------------------------------------------------------------- *)
(** * Properties of app.py *)

Module AppProofs.
Import App.

Lemma find_patient_none st x o p :
  find_patient st x = None -> In (o, p) (patients st) -> neonate_id p <> x.
Proof.
  unfold find_patient. intros H Hin Heq.
  pose proof (find_none _ _ H (o, p) Hin) as Hf. simpl in Hf.
  rewrite Heq, String.eqb_refl in Hf. discriminate.
Qed.

Lemma find_patient_in st x o p :
  In (o, p) (patients st) -> neonate_id p = x -> exists q, find_patient st x = Some q.
Proof.
  intros Hin Heq. destruct (find_patient st x) as [q|] eqn:E; [eauto|].
  exfalso. exact (find_patient_none st x o p E Hin Heq).
Qed.

Lemma insert_desc_in {A} (key : A -> string) x l y :
  In y (insert_desc key x l) <-> x = y \/ In y l.
Proof.
  induction l as [|z t IH]; simpl; [tauto|].
  destruct (String.compare (key x) (key z)); simpl; rewrite ?IH; tauto.
Qed.

Lemma sort_desc_in {A} (key : A -> string) l y :
  In y (sort_desc key l) <-> In y l.
Proof.
  induction l as [|z t IH]; simpl; [tauto|].
  rewrite insert_desc_in, IH. tauto.
Qed.

Lemma file_at_save st path c : file_at (write_file st path c) path = Some c.
Proof. unfold file_at, write_file. simpl. rewrite String.eqb_refl. reflexivity. Qed.

Lemma find_patient_some st x o p :
  find_patient st x = Some (o, p) -> In (o, p) (patients st) /\ neonate_id p = x.
Proof.
  unfold find_patient. intros H. destruct (find_some _ _ H) as [Hin Heq].
  split; [exact Hin|]. apply String.eqb_eq. exact Heq.
Qed.


Section AppClaims.

Variable upper : string -> string.
Variable dt_parse : string -> parse_outcome.
Variable py_float : string -> option Q.
Variable format_mb : nat -> string.
Variable can_save : string -> bool.

(** Python's [str.upper] is idempotent: the upper-case form of every code
    point is left unchanged by a second [upper]. *)
Hypothesis upper_idem : forall s, upper (upper s) = upper s.

Local Abbreviation add := (add_patient upper dt_parse py_float).
Local Abbreviation schedule := (schedule_appointment upper dt_parse).
Local Abbreviation upload := (upload_image upper format_mb can_save).
Local Abbreviation reach := (reachable upper dt_parse py_float format_mb can_save).
Local Abbreviation details := (get_patient_details upper).

Lemma add_patient_cases st data now st' r :
  add st data now = (st', r) ->
  st' = st \/
  (exists p, neonate_id p = upper (dict_at "neonate_id" data) /\
             find_patient st (upper (dict_at "neonate_id" data)) = None /\
             st' = fst (insert_patient st p)).
Proof.
  unfold add_patient.
  destruct (negb (all_fields _ data)); [intros H; inversion H; auto|].
  destruct (find_patient st (upper (dict_at "neonate_id" data))) eqn:Ef;
    [intros H; inversion H; auto|].
  destruct (dt_parse (dict_at "birth_date" data)); try (intros H; inversion H; auto; fail).
  destruct (match dict_get "weight" data with
            | Some v => if String.eqb v "" then Some None else option_map Some (py_float v)
            | None => Some None end); [|intros H; inversion H; auto].
  intros H. inversion H; subst. right. eexists. split; [|split; [reflexivity|reflexivity]].
  reflexivity.
Qed.

Lemma schedule_patients st data now :
  patients (fst (schedule st data now)) = patients st.
Proof.
  unfold schedule_appointment.
  destruct (negb _); [reflexivity|].
  destruct (details st _); [|reflexivity].
  destruct (dt_parse _); reflexivity.
Qed.

Lemma upload_patients st req now token :
  patients (fst (upload st req now token)) = patients st.
Proof.
  unfold upload_image.
  destruct (files_get _ _); [|reflexivity].
  destruct (dict_get _ _); [|reflexivity].
  destruct (String.eqb _ _); [reflexivity|].
  destruct (details st _); [|reflexivity].
  unfold save_file. destruct (can_save _); [|reflexivity].
  rewrite file_at_save. reflexivity.
Qed.

(** Stored identifiers are upper-case and pairwise distinct. *)
Definition ids_normal (st : db) : Prop :=
  Forall (fun op => upper (neonate_id (snd op)) = neonate_id (snd op)) (patients st) /\
  NoDup (map (fun op => neonate_id (snd op)) (patients st)).

Lemma ids_normal_step st st' :
  ids_normal st -> step upper dt_parse py_float format_mb can_save st st' -> ids_normal st'.
Proof.
  intros [Hup Hnd] Hs. inversion Hs as [st0 data now| st0 data now| st0 req now token]; subst.
  - destruct (add st data now) as [st1 r] eqn:Ea. simpl.
    destruct (add_patient_cases st data now st1 r Ea) as [->|(p & Hp & Hf & ->)];
      [split; assumption|].
    unfold insert_patient, ids_normal; simpl. split.
    + apply Forall_app. split; [exact Hup|]. constructor; [|constructor].
      simpl. rewrite Hp. apply upper_idem.
    + rewrite map_app. simpl. apply NoDup_app; [exact Hnd|constructor; auto; constructor|].
      intros x Hx Hx'. destruct Hx' as [<-|[]].
      apply in_map_iff in Hx. destruct Hx as [[o q] [Hq Hin]]. simpl in Hq.
      exact (find_patient_none st _ o q Hf Hin (eq_trans Hq Hp)).
  - unfold ids_normal. rewrite schedule_patients. split; assumption.
  - unfold ids_normal. rewrite upload_patients. split; assumption.
Qed.

Lemma reachable_ids_normal st : reach st -> ids_normal st.
Proof.
  induction 1 as [|st st' _ IH Hs].
  - split; constructor.
  - exact (ids_normal_step st st' IH Hs).
Qed.

Lemma upload_accepted st req now token st' r :
  upload st req now token = (st', r) -> code r = 201%nat ->
  exists file pid det rec,
    can_save (im_filepath rec) = true /\
    st' = update_image
            (fst (insert_image (write_file st (im_filepath rec) (fs_content file)) rec))
            (next_oid st) mark_processed /\
    r = resp 201 (UploadAccepted
                    "Image uploaded successfully and sent for AI processing."
                    (next_oid st) "Processing") /\
    files_get "file" (req_files req) = Some file /\
    dict_get "patientId" (req_form req) = Some pid /\
    details st (upper pid) = Some det /\
    im_patientId rec = upper pid /\
    im_filename rec = upper pid ++ "_" ++ token ++ snd (splitext (fs_filename file)) /\
    im_filepath rec = path_join UPLOAD_FOLDER (im_filename rec) /\
    im_status rec = "Uploaded" /\
    ai_status (im_ai_result rec) = "Processing".
Proof.
  unfold upload_image.
  destruct (files_get "file" (req_files req)) as [file|] eqn:Ef;
    [|intros H; inversion H; subst; discriminate].
  destruct (dict_get "patientId" (req_form req)) as [pid|] eqn:Ep;
    [|intros H; inversion H; subst; discriminate].
  destruct (String.eqb (fs_filename file) ""); [intros H; inversion H; subst; discriminate|].
  destruct (details st (upper pid)) as [det|] eqn:Ed;
    [|intros H; inversion H; subst; discriminate].
  unfold save_file.
  destruct (can_save (path_join UPLOAD_FOLDER
              (upper pid ++ "_" ++ token ++ snd (splitext (fs_filename file))))) eqn:Ec;
    [|intros H; inversion H; subst; discriminate].
  rewrite file_at_save. intros H _.
  match type of H with context [insert_image _ ?rc] =>
    exists file, pid, det, rc end.
  inversion H; subst. repeat split; assumption || reflexivity.
Qed.

Lemma upload_accepted_stored st req now token st' r :
  upload st req now token = (st', r) -> code r = 201%nat ->
  exists file pid det rec,
    r = resp 201 (UploadAccepted
                    "Image uploaded successfully and sent for AI processing."
                    (next_oid st) "Processing") /\
    files_get "file" (req_files req) = Some file /\
    dict_get "patientId" (req_form req) = Some pid /\
    details st (upper pid) = Some det /\
    im_filename rec = upper pid ++ "_" ++ token ++ snd (splitext (fs_filename file)) /\
    im_filepath rec = path_join UPLOAD_FOLDER (im_filename rec) /\
    In (next_oid st, mark_processed rec) (images st') /\
    file_at st' (im_filepath rec) = Some (fs_content file) /\
    images st' = map (fun '(o', r0) =>
                        if Nat.eqb o' (next_oid st) then (o', mark_processed r0) else (o', r0))
                     (images st ++ [(next_oid st, rec)]).
Proof.
  intros H Hc.
  destruct (upload_accepted st req now token st' r H Hc)
    as (file & pid & det & rec & _ & Hst & Hr & Hf & Hp & Hd & _ & Hn & Hpath & _ & _).
  exists file, pid, det, rec. subst st'.
  repeat split; auto.
  - simpl. apply in_map_iff. exists (next_oid st, rec). rewrite Nat.eqb_refl.
    split; [reflexivity|]. apply in_or_app. right. left. reflexivity.
  - unfold file_at, update_image, insert_image. simpl.
    pose proof (file_at_save st (im_filepath rec) (fs_content file)) as Hs.
    unfold file_at in Hs. simpl in Hs. exact Hs.
Qed.


(** C9: the 201 answer of an upload always carries [aiResult.status]
    "Processing", while the stored record it names has already been moved
    to status "Processed" with [ai_result.status] "Pending Review". *)
Theorem upload_response_stale st req now token st' r :
  upload_image upper format_mb can_save st req now token = (st', r) -> code r = 201%nat ->
  exists o rec,
    resp_body r = UploadAccepted
                    "Image uploaded successfully and sent for AI processing."
                    o "Processing" /\
    In (o, rec) (images st') /\
    im_status rec = "Processed" /\
    ai_status (im_ai_result rec) = "Pending Review" /\
    ai_status (im_ai_result rec) <> "Processing".
Proof.
  intros H Hc.
  destruct (upload_accepted_stored st req now token st' r H Hc)
    as (file & pid & det & rec & Hr & _ & _ & _ & _ & _ & Hin & _ & _).
  exists (next_oid st), (mark_processed rec). subst r.
  repeat split; [exact Hin|discriminate].
Qed.

(** C6: in every reachable state, where "up to case" means equal after
    Python's [str.upper], (a) a request with the required fields, a
    parsable birth date and weight, and an identifier not stored up to
    case creates the patient (201), who then appears in the patient list;
    (b) a request with the required fields whose identifier equals a stored
    one up to case is answered 409 and changes nothing; (c) stored
    identifiers are pairwise distinct up to case. *)
Theorem patient_ids_unique st :
  reach st ->
  (forall data now,
     all_fields ["name"; "neonate_id"; "birth_date"; "parent_name"] data = true ->
     (forall o p, In (o, p) (patients st) ->
        upper (neonate_id p) <> upper (dict_at "neonate_id" data)) ->
     (exists bd, dt_parse (dict_at "birth_date" data) = Parsed bd) ->
     (forall v, dict_get "weight" data = Some v -> v <> "" -> py_float v <> None) ->
     code (snd (add st data now)) = 201%nat /\
     exists o p, In (o, p) (get_all_patients (fst (add st data now))) /\
                 neonate_id p = upper (dict_at "neonate_id" data)) /\
  (forall data now o p,
     all_fields ["name"; "neonate_id"; "birth_date"; "parent_name"] data = true ->
     In (o, p) (patients st) ->
     upper (neonate_id p) = upper (dict_at "neonate_id" data) ->
     add st data now =
       (st, resp 409 (Message ("Patient ID " ++ dict_at "neonate_id" data
                               ++ " already exists.")))) /\
  NoDup (map (fun op => upper (neonate_id (snd op))) (patients st)).
Proof.
  intros Hr. destruct (reachable_ids_normal st Hr) as [Hup Hnd].
  split; [|split].
  - intros data now Hf Hnew [bd Hbd] Hw.
    assert (Hnone : find_patient st (upper (dict_at "neonate_id" data)) = None).
    { destruct (find_patient st _) as [[o p]|] eqn:E; [|reflexivity].
      destruct (find_patient_some _ _ _ _ E) as [Hin Heq].
      exfalso. apply (Hnew o p Hin). rewrite Heq. apply upper_idem. }
    unfold add_patient. rewrite Hf, Hnone, Hbd. cbn [negb].
    destruct (match dict_get "weight" data with
              | Some v => if String.eqb v "" then Some None else option_map Some (py_float v)
              | None => Some None end) as [wt|] eqn:Ew.
    2:{ exfalso. destruct (dict_get "weight" data) as [v|]; [|discriminate].
        destruct (String.eqb v "") eqn:Ev; [discriminate|].
        apply String.eqb_neq in Ev. apply (Hw v eq_refl Ev).
        destruct (py_float v); [discriminate|reflexivity]. }
    cbn [fst snd insert_patient code resp].
    split; [reflexivity|]. eexists; eexists. split.
    + unfold get_all_patients. apply sort_desc_in. cbn [patients].
      apply in_or_app. right. left. reflexivity.
    + reflexivity.
  - intros data now o p Hf Hin Heq.
    rewrite Forall_forall in Hup. pose proof (Hup (o, p) Hin) as Hn. simpl in Hn.
    rewrite Hn in Heq.
    destruct (find_patient_in st _ o p Hin Heq) as [q Hq].
    unfold add_patient. rewrite Hf. simpl. rewrite Hq. reflexivity.
  - replace (map (fun op => upper (neonate_id (snd op))) (patients st))
      with (map (fun op => neonate_id (snd op)) (patients st)); [exact Hnd|].
    apply map_ext_in. intros a Ha. rewrite Forall_forall in Hup.
    symmetry. exact (Hup a Ha).
Qed.


End AppClaims.

Import Fixtures.

Lemma upper_char_idem (c : ascii) : upper_char (upper_char c) = upper_char c.
Proof.
  destruct c as [[] [] [] [] [] [] [] []]; vm_compute; reflexivity.
Qed.

Lemma upper_ascii_idem (s : string) : upper_ascii (upper_ascii s) = upper_ascii s.
Proof.
  induction s as [|c t IH]; simpl; [reflexivity|]. rewrite upper_char_idem, IH.
  reflexivity.
Qed.



(** Witness of C9. *)
Lemma upload_response_stale_witness :
  code (snd upload_n001) = 201%nat /\
  exists o rec,
    resp_body (snd upload_n001) = UploadAccepted
      "Image uploaded successfully and sent for AI processing." o "Processing" /\
    In (o, rec) (images (fst upload_n001)) /\
    ai_status (im_ai_result rec) = "Pending Review".
Proof.
  split; [vm_compute; reflexivity|].
  destruct (upload_response_stale upper_ascii mb_fmt save_ok (db_with "N001") (scan_upload "n001")
              "2024-01-02T10:00:00" "abc" (fst upload_n001) (snd upload_n001)
              eq_refl eq_refl)
    as (o & rec & Hr & Hin & _ & Hs & _).
  exists o, rec. split; [exact Hr|]. split; [exact Hin|exact Hs].
Defined.

(** Witness of C6: after registering N001, registering "n001" again is
    answered 409. *)
Lemma patient_ids_unique_witness :
  reachable upper_ascii parse_iso float_none mb_fmt save_ok (db_with "N001") /\
  add_patient upper_ascii parse_iso float_none (db_with "N001") (patient_form "n001")
    "2024-01-02T11:00:00" =
  (db_with "N001", resp 409 (Message "Patient ID n001 already exists.")).
Proof.
  assert (Hr : reachable upper_ascii parse_iso float_none mb_fmt save_ok (db_with "N001")).
  { eapply reach_step; [apply reach_empty|apply StepAddPatient]. }
  split; [exact Hr|].
  destruct (patient_ids_unique upper_ascii parse_iso float_none mb_fmt save_ok
              upper_ascii_idem (db_with "N001") Hr)
    as [_ [Hb _]].
  apply (Hb (patient_form "n001") "2024-01-02T11:00:00" 0%nat (baby_doe "N001"));
    [reflexivity|left; reflexivity|reflexivity].
Defined.



(** C8 (defect): for a patient registered as "/n", the generated name
    "/N_abc.png" is absolute, so [os.path.join(UPLOAD_FOLDER, filename)]
    drops the upload folder: the upload is accepted and the file is written
    at "/N_abc.png", outside "uploads/". *)
Theorem upload_outside_upload_folder :
  code (snd upload_slash) = 201%nat /\
  existsb (fun '(_, rec) => String.eqb (im_filepath rec) "/N_abc.png")
          (images (fst upload_slash)) = true /\
  file_at (fst upload_slash) "/N_abc.png" = Some [Byte.x00] /\
  String.prefix (UPLOAD_FOLDER ++ "/") "/N_abc.png" = false.
Proof. repeat split; vm_compute; reflexivity. Qed.

End AppProofs.

(* ------------------------------------------------------------------------- *)
(** * Further properties of app.py: listings, statistics, the write paths *)

Module AppExtra.
Import App AppProofs.

(** Bytewise string order. *)
Lemma string_ge_trans (a b c : string) :
  String.compare a b <> Lt -> String.compare b c <> Lt -> String.compare a c <> Lt.
Proof.
  revert b c. induction a as [|x a IH]; intros [|y b] [|z c]; simpl; try congruence.
  intros H1 H2.
  destruct (Ascii.compare x y) eqn:E1; destruct (Ascii.compare y z) eqn:E2;
    destruct (Ascii.compare x z) eqn:E3; try congruence.
  all: unfold Ascii.compare in E1, E2, E3.
  all: try apply N.compare_eq_iff in E1; try apply N.compare_eq_iff in E2;
    try apply N.compare_gt_iff in E1; try apply N.compare_gt_iff in E2;
    try apply N.compare_eq_iff in E3; try apply (proj1 (N.compare_lt_iff _ _)) in E3.
  all: try (exfalso; lia).
  exact (IH b c H1 H2).
Qed.

Lemma string_le_trans (a b c : string) :
  String.compare a b <> Gt -> String.compare b c <> Gt -> String.compare a c <> Gt.
Proof.
  intros H1 H2.
  assert (K1 : String.compare b a <> Lt)
    by (rewrite String.compare_antisym; destruct (String.compare a b); simpl; congruence).
  assert (K2 : String.compare c b <> Lt)
    by (rewrite String.compare_antisym; destruct (String.compare b c); simpl; congruence).
  pose proof (string_ge_trans c b a K2 K1) as K.
  rewrite String.compare_antisym. destruct (String.compare c a); simpl; congruence.
Qed.

Lemma Sorted_mono {A} (R R' : A -> A -> Prop) l :
  (forall x y, R x y -> R' x y) -> Sorted R l -> Sorted R' l.
Proof.
  intros HR. induction 1 as [|x l _ IH Hhd]; constructor; [exact IH|].
  destruct Hhd; constructor. apply HR. assumption.
Qed.

Section SortProps.
Variable A : Type.
Variable key : A -> string.

Local Abbreviation ge_key := (fun x y => String.compare (key x) (key y) <> Lt).
Local Abbreviation le_key := (fun x y => String.compare (key x) (key y) <> Gt).

Lemma insert_desc_hd (x z : A) l :
  HdRel ge_key z l -> ge_key z x -> HdRel ge_key z (insert_desc key x l).
Proof.
  destruct l as [|y t]; simpl; intros Hh Hzx; [constructor; exact Hzx|].
  destruct (String.compare (key x) (key y)); constructor; try exact Hzx.
  all: inversion Hh; assumption.
Qed.

Lemma insert_desc_sorted x l : Sorted ge_key l -> Sorted ge_key (insert_desc key x l).
Proof.
  induction l as [|y t IH]; simpl; intros HS; [repeat constructor|].
  apply Sorted_inv in HS. destruct HS as [Ht Hh].
  destruct (String.compare (key x) (key y)) eqn:E.
  - constructor; [exact (IH Ht)|]. apply insert_desc_hd; [exact Hh|].
    simpl. rewrite String.compare_antisym, E. discriminate.
  - constructor; [exact (IH Ht)|]. apply insert_desc_hd; [exact Hh|].
    simpl. rewrite String.compare_antisym, E. discriminate.
  - constructor; [constructor; assumption|]. constructor. simpl. rewrite E. discriminate.
Qed.

Lemma sort_desc_sorted l : Sorted ge_key (sort_desc key l).
Proof. induction l as [|x t IH]; simpl; [constructor|]. apply insert_desc_sorted, IH. Qed.

Lemma insert_desc_perm x l : Permutation (insert_desc key x l) (x :: l).
Proof.
  induction l as [|y t IH]; simpl; [reflexivity|].
  destruct (String.compare (key x) (key y)); try reflexivity.
  all: eapply perm_trans; [apply perm_skip, IH|apply perm_swap].
Qed.

Lemma sort_desc_perm l : Permutation (sort_desc key l) l.
Proof.
  induction l as [|x t IH]; simpl; [reflexivity|].
  eapply perm_trans; [apply insert_desc_perm|]. apply perm_skip, IH.
Qed.

Lemma insert_asc_hd (x z : A) l :
  HdRel le_key z l -> le_key z x -> HdRel le_key z (insert_asc key x l).
Proof.
  destruct l as [|y t]; simpl; intros Hh Hzx; [constructor; exact Hzx|].
  destruct (String.compare (key x) (key y)); constructor; try exact Hzx.
  all: inversion Hh; assumption.
Qed.

Lemma insert_asc_sorted x l : Sorted le_key l -> Sorted le_key (insert_asc key x l).
Proof.
  induction l as [|y t IH]; simpl; intros HS; [repeat constructor|].
  apply Sorted_inv in HS. destruct HS as [Ht Hh].
  destruct (String.compare (key x) (key y)) eqn:E.
  - constructor; [exact (IH Ht)|]. apply insert_asc_hd; [exact Hh|].
    simpl. rewrite String.compare_antisym, E. discriminate.
  - constructor; [constructor; assumption|]. constructor. simpl. rewrite E. discriminate.
  - constructor; [exact (IH Ht)|]. apply insert_asc_hd; [exact Hh|].
    simpl. rewrite String.compare_antisym, E. discriminate.
Qed.

Lemma sort_asc_sorted l : Sorted le_key (sort_asc key l).
Proof. induction l as [|x t IH]; simpl; [constructor|]. apply insert_asc_sorted, IH. Qed.

Lemma insert_asc_perm x l : Permutation (insert_asc key x l) (x :: l).
Proof.
  induction l as [|y t IH]; simpl; [reflexivity|].
  destruct (String.compare (key x) (key y)); try reflexivity.
  all: eapply perm_trans; [apply perm_skip, IH|apply perm_swap].
Qed.

Lemma sort_asc_perm l : Permutation (sort_asc key l) l.
Proof.
  induction l as [|x t IH]; simpl; [reflexivity|].
  eapply perm_trans; [apply insert_asc_perm|]. apply perm_skip, IH.
Qed.

End SortProps.

Lemma StronglySorted_app {A} (R : A -> A -> Prop) l1 l2 :
  StronglySorted R (l1 ++ l2) ->
  StronglySorted R l1 /\ (forall x y, In x l1 -> In y l2 -> R x y).
Proof.
  induction l1 as [|a t IH]; simpl; intros H; [split; [constructor|intros x y []]|].
  apply StronglySorted_inv in H. destruct H as [H Ha].
  destruct (IH H) as [Ht Hc]. apply Forall_app in Ha. destruct Ha as [Ha1 Ha2].
  split; [constructor; assumption|].
  intros x y [<-|Hx] Hy; [|apply Hc; assumption].
  rewrite Forall_forall in Ha2. apply Ha2, Hy.
Qed.

Lemma firstn_sorted_split {A} (key : A -> string) (s l : list A) n :
  Sorted (fun x y => String.compare (key x) (key y) <> Lt) s -> Permutation s l ->
  (List.length (firstn n s) <= n)%nat /\
  Sorted (fun x y => String.compare (key x) (key y) <> Lt) (firstn n s) /\
  exists rest,
    Permutation (firstn n s ++ rest) l /\
    (forall x y, In x (firstn n s) -> In y rest ->
       String.compare (key x) (key y) <> Lt) /\
    ((List.length l <= n)%nat -> rest = []).
Proof.
  intros HS HP.
  assert (HSS : StronglySorted (fun x y => String.compare (key x) (key y) <> Lt) s).
  { apply Sorted_StronglySorted; [|exact HS].
    intros x y z. apply string_ge_trans. }
  rewrite <- (firstn_skipn n s) in HSS.
  destruct (StronglySorted_app _ _ _ HSS) as [H1 H2].
  split; [apply firstn_le_length|]. split; [apply StronglySorted_Sorted, H1|].
  exists (skipn n s). split; [rewrite firstn_skipn; exact HP|]. split; [exact H2|].
  intros Hl. apply skipn_all2. rewrite (Permutation_length HP). exact Hl.
Qed.

(** X1: [get_all_patients] returns the stored patients, each as often as
    it is stored (a permutation of the collection), ordered by
    [created_at], newest first. *)
Theorem get_all_patients_sorted st :
  Permutation (get_all_patients st) (patients st) /\
  Sorted (fun x y => String.compare (pa_created_at (snd x)) (pa_created_at (snd y)) <> Lt)
         (get_all_patients st).
Proof.
  split; [apply sort_desc_perm|].
  refine (Sorted_mono _ _ _ _ (sort_desc_sorted _ _ (patients st))).
  intros [o p] [o' p'] H. exact H.
Qed.

(** X2: the upload history holds at most 10 records, newest [upload_time]
    first; together with the stored records it leaves out it is a
    permutation of the collection, every record it leaves out is no newer
    than any record it shows, and with at most 10 stored records it leaves
    none out. *)
Theorem get_upload_history_recent st :
  (List.length (get_upload_history st) <= 10)%nat /\
  Sorted (fun x y => String.compare (im_upload_time (snd x)) (im_upload_time (snd y)) <> Lt)
         (get_upload_history st) /\
  exists rest,
    Permutation (get_upload_history st ++ rest) (images st) /\
    (forall x y, In x (get_upload_history st) -> In y rest ->
       String.compare (im_upload_time (snd x)) (im_upload_time (snd y)) <> Lt) /\
    ((List.length (images st) <= 10)%nat -> rest = []).
Proof.
  pose (key := fun '((_, r) : oid * image_record) => im_upload_time r).
  destruct (firstn_sorted_split key _ (images st) 10
              (sort_desc_sorted _ key (images st)) (sort_desc_perm _ key (images st)))
    as (Hlen & HS & rest & HP & Hc & Hn).
  split; [exact Hlen|]. split.
  - refine (Sorted_mono _ _ _ _ HS). intros [o r] [o' r'] H. exact H.
  - exists rest. split; [exact HP|]. split; [|exact Hn].
    intros [o r] [o' r'] Hx Hy. exact (Hc _ _ Hx Hy).
Qed.

(** X3: [get_appointments_today] returns exactly the stored appointments
    whose [datetime] string lies in the window [today_iso <= datetime <
    tomorrow_iso] (bytewise string order), in ascending [datetime]
    order. *)
Theorem get_appointments_today_window st today tomorrow :
  (forall x, In x (get_appointments_today st today tomorrow) <->
     In x (appointments st) /\
     String.compare (ap_datetime (snd x)) today <> Lt /\
     String.compare (ap_datetime (snd x)) tomorrow = Lt) /\
  Sorted (fun x y => String.compare (ap_datetime (snd x)) (ap_datetime (snd y)) <> Gt)
         (get_appointments_today st today tomorrow).
Proof.
  unfold get_appointments_today. split.
  - intros x. split.
    + intros Hx. apply (Permutation_in _ (sort_asc_perm _ _ _)) in Hx.
      apply filter_In in Hx. destruct Hx as [Hin Hb]. destruct x as [o a]. simpl in Hb |- *.
      split; [exact Hin|].
      destruct (String.compare (ap_datetime a) today);
        destruct (String.compare (ap_datetime a) tomorrow); simpl in Hb;
        try discriminate; split; congruence.
    + intros (Hin & H1 & H2). apply (Permutation_in _ (Permutation_sym (sort_asc_perm _ _ _))).
      apply filter_In. split; [exact Hin|]. destruct x as [o a]. simpl in *.
      rewrite H2. destruct (String.compare (ap_datetime a) today); simpl; congruence.
  - refine (Sorted_mono _ _ _ _ (sort_asc_sorted _ _ _)). intros [o a] [o' a'] H. exact H.
Qed.

Lemma find_app {A} (f : A -> bool) l1 l2 :
  find f (l1 ++ l2) = match find f l1 with Some x => Some x | None => find f l2 end.
Proof.
  induction l1 as [|x t IH]; simpl; [reflexivity|]. destruct (f x); [reflexivity|exact IH].
Qed.

Lemma prefix_slash_cons c u v :
  String.prefix "/" (String c u) = String.prefix "/" (String c v).
Proof. cbn -[ascii_dec]. destruct (ascii_dec "/" c); [destruct u, v|]; reflexivity. Qed.

Lemma filter_none {A} (f : A -> bool) l :
  (forall x, In x l -> f x = false) -> filter f l = [].
Proof.
  induction l as [|x t IH]; simpl; intros H; [reflexivity|].
  rewrite (H x (or_introl eq_refl)). apply IH. intros y Hy. apply H. right. exact Hy.
Qed.

Section Writes.

Variable upper : string -> string.
Variable dt_parse : string -> parse_outcome.
Variable py_float : string -> option Q.
Variable format_mb : nat -> string.
Variable can_save : string -> bool.

Local Abbreviation add := (add_patient upper dt_parse py_float).
Local Abbreviation schedule := (schedule_appointment upper dt_parse).
Local Abbreviation upload := (upload_image upper format_mb can_save).
Local Abbreviation reach := (reachable upper dt_parse py_float format_mb can_save).
Local Abbreviation details := (get_patient_details upper).

(** [str.upper] is idempotent (see [AppProofs]). *)
Hypothesis upper_idem : forall s, upper (upper s) = upper s.

Lemma add_patient_outcome st data now :
  (fst (add st data now) = st /\ code (snd (add st data now)) <> 201%nat) \/
  (code (snd (add st data now)) = 201%nat /\
   resp_body (snd (add st data now)) =
     Created "Patient record created successfully." (next_oid st) /\
   exists p, fst (add st data now) = fst (insert_patient st p) /\
     neonate_id p = upper (dict_at "neonate_id" data) /\
     name p = dict_at "name" data /\
     find_patient st (upper (dict_at "neonate_id" data)) = None).
Proof.
  unfold add_patient.
  destruct (negb (all_fields _ data)); [left; split; [reflexivity|discriminate]|].
  destruct (find_patient st (upper (dict_at "neonate_id" data))) eqn:Ef;
    [left; split; [reflexivity|discriminate]|].
  destruct (dt_parse _); try (left; split; [reflexivity|discriminate]).
  destruct (match dict_get "weight" data with
            | Some v => if String.eqb v "" then Some None else option_map Some (py_float v)
            | None => Some None end); [|left; split; [reflexivity|discriminate]].
  right. simpl. split; [reflexivity|]. split; [reflexivity|].
  eexists. split; [reflexivity|]. repeat split.
Qed.

Lemma schedule_outcome st data now :
  (fst (schedule st data now) = st /\ code (snd (schedule st data now)) <> 201%nat) \/
  (code (snd (schedule st data now)) = 201%nat /\
   exists a o p, fst (schedule st data now) = fst (insert_appointment st a) /\
     find_patient st (upper (dict_at "patientId" data)) = Some (o, p) /\
     ap_patientId a = neonate_id p /\ ap_patientName a = name p /\
     ap_status a = "Scheduled").
Proof.
  unfold schedule_appointment, get_patient_details.
  destruct (negb (all_fields _ data)); [left; split; [reflexivity|discriminate]|].
  destruct (find_patient st (upper (dict_at "patientId" data))) as [[o p]|] eqn:Ef;
    [|left; split; [reflexivity|discriminate]].
  destruct (dt_parse _); try (left; split; [reflexivity|discriminate]).
  right. simpl. split; [reflexivity|].
  eexists; exists o, p. split; [reflexivity|]. repeat split.
Qed.

Lemma upload_rejected st req now token st' r :
  upload st req now token = (st', r) -> code r <> 201%nat -> st' = st.
Proof.
  unfold upload_image.
  destruct (files_get "file" (req_files req)) as [file|];
    [|intros E _; injection E as <- _; reflexivity].
  destruct (dict_get "patientId" (req_form req)) as [pid|];
    [|intros E _; injection E as <- _; reflexivity].
  destruct (String.eqb (fs_filename file) ""); [intros E _; injection E as <- _; reflexivity|].
  destruct (details st (upper pid));
    [|intros E _; injection E as <- _; reflexivity].
  unfold save_file. destruct (can_save _); [|intros E _; injection E as <- _; reflexivity].
  rewrite file_at_save. intros E Hc. injection E as _ <-. exfalso. apply Hc. reflexivity.
Qed.

Lemma upload_outcome st req now token :
  (fst (upload st req now token) = st /\ code (snd (upload st req now token)) <> 201%nat) \/
  (code (snd (upload st req now token)) = 201%nat /\
   exists rec c o p pid,
     fst (upload st req now token) =
       update_image (fst (insert_image (write_file st (im_filepath rec) c) rec))
                    (next_oid st) mark_processed /\
     In (o, p) (patients st) /\ im_patientId rec = upper pid /\
     neonate_id p = upper (upper pid)).
Proof.
  destruct (upload st req now token) as [st' r] eqn:E. simpl.
  destruct (Nat.eq_dec (code r) 201) as [Hc|Hc].
  - right. split; [exact Hc|].
    destruct (upload_accepted upper format_mb can_save st req now token st' r E Hc)
      as (file & pid & det & rec & _ & Hst & _ & _ & _ & Hd & Hpid & _).
    unfold get_patient_details in Hd.
    destruct (find_patient st (upper (upper pid))) as [[o p]|] eqn:Ef; [|discriminate].
    destruct (find_patient_some _ _ _ _ Ef) as [Hin Heq].
    exists rec, (fs_content file), o, p, pid. split; [exact Hst|]. split; [exact Hin|].
    split; [exact Hpid|exact Heq].
  - left. split; [|exact Hc]. exact (upload_rejected st req now token st' r E Hc).
Qed.

(** The three ways a step can change the state. *)
Lemma step_cases st st' :
  step upper dt_parse py_float format_mb can_save st st' ->
  st' = st \/
  (exists p, st' = fst (insert_patient st p)) \/
  (exists a o p, st' = fst (insert_appointment st a) /\
     In (o, p) (patients st) /\ ap_patientId a = neonate_id p) \/
  (exists rec c o p pid,
     st' = update_image (fst (insert_image (write_file st (im_filepath rec) c) rec))
                        (next_oid st) mark_processed /\
     In (o, p) (patients st) /\ im_patientId rec = upper pid /\
     neonate_id p = upper (upper pid)).
Proof.
  intros Hs. inversion Hs as [st0 data now| st0 data now| st0 req now token]; subst.
  - destruct (add_patient_outcome st data now) as [[-> _]|(_ & _ & p & -> & _)];
      [left; reflexivity|right; left; exists p; reflexivity].
  - destruct (schedule_outcome st data now) as [[-> _]|(_ & a & o & p & -> & Ef & Hid & _)];
      [left; reflexivity|].
    right; right; left. exists a, o, p. split; [reflexivity|]. split; [|exact Hid].
    exact (proj1 (find_patient_some _ _ _ _ Ef)).
  - destruct (upload_outcome st req now token)
      as [[-> _]|(_ & rec & c & o & p & pid & -> & Hin & Hid)]; [left; reflexivity|].
    right; right; right. exists rec, c, o, p, pid. auto.
Qed.

Lemma images_update_in st rec c n x :
  In x (images (update_image (fst (insert_image (write_file st (im_filepath rec) c) rec))
                             n mark_processed)) ->
  (exists r, In (fst x, r) (images st ++ [(next_oid st, rec)]) /\
             (snd x = mark_processed r \/ (snd x = r /\ fst x <> n))).
Proof.
  simpl. intros Hx. apply in_map_iff in Hx. destruct Hx as [[o r] [Hx Hin]].
  exists r. destruct (Nat.eqb o n) eqn:E; subst x; simpl; split; auto.
  right. split; [reflexivity|]. apply Nat.eqb_neq, E.
Qed.

Lemma step_patients_incl st st' :
  step upper dt_parse py_float format_mb can_save st st' -> incl (patients st) (patients st').
Proof.
  intros Hs. destruct (step_cases st st' Hs)
    as [->|[[p ->]|[(a & o & p & -> & _)|(rec & c & o & p & pid & -> & _)]]];
    simpl; intros x Hx; auto using in_or_app.
Qed.

Lemma reachable_images_processed st :
  reach st -> Forall (fun x => exists r, snd x = mark_processed r) (images st).
Proof.
  induction 1 as [|st st' _ IH Hs]; [constructor|].
  destruct (step_cases st st' Hs)
    as [->|[[p ->]|[(a & o & p & -> & _)|(rec & c & o & p & pid & -> & _)]]]; try exact IH.
  apply Forall_forall. intros x Hx.
  destruct (images_update_in st rec c (next_oid st) x Hx) as (r & Hin & [Hr|[Hr Hn]]);
    [exists r; exact Hr|].
  apply in_app_or in Hin. destruct Hin as [Hin|[Hin|[]]].
  - rewrite Forall_forall in IH. rewrite Hr. exact (IH _ Hin).
  - injection Hin as Hin _. exfalso. exact (Hn (eq_sym Hin)).
Qed.

(** X5: in every reachable state, every stored image record carries the
    upload mock's result (status "Processed", prediction "Low-Risk ROP
    Stage 1"), so [get_stats] reports no image pending review, none
    reviewed and none pending processing, and [get_images_for_review]
    answers its hardcoded placeholder. *)
Theorem reachable_review_counts_zero st :
  reach st ->
  (forall today,
     pendingReview (get_stats st today) = 0%nat /\
     totalReviewed (get_stats st today) = 0%nat /\
     pendingProcessing (get_stats st today) = 0%nat) /\
  (forall now, get_images_for_review st now = ReviewPlaceholder now).
Proof.
  intros Hr. pose proof (reachable_images_processed st Hr) as Hp.
  rewrite Forall_forall in Hp. split.
  - intros today. unfold get_stats, count_documents. simpl.
    repeat split; (rewrite filter_none; [reflexivity|]); intros [o x] Hin;
      destruct (Hp _ Hin) as [r Hx]; simpl in Hx; subst x; reflexivity.
  - intros now. unfold get_images_for_review. rewrite filter_none; [reflexivity|].
    intros [o x] Hin. destruct (Hp _ Hin) as [r Hx]. simpl in Hx. subst x. reflexivity.
Qed.

(** X6: a request to [add_patient], [schedule_appointment] or
    [upload_image] that is not answered 201 leaves the database and the
    upload folder unchanged; this includes the 500 of an upload whose
    [file.save] raises (for instance when the directory part of the
    generated path does not exist). *)
Theorem rejected_requests_write_nothing st :
  (forall data now,
     code (snd (add_patient upper dt_parse py_float st data now)) <> 201%nat ->
     fst (add_patient upper dt_parse py_float st data now) = st) /\
  (forall data now,
     code (snd (schedule_appointment upper dt_parse st data now)) <> 201%nat ->
     fst (schedule_appointment upper dt_parse st data now) = st) /\
  (forall req now token,
     code (snd (upload_image upper format_mb can_save st req now token)) <> 201%nat ->
     fst (upload_image upper format_mb can_save st req now token) = st).
Proof.
  split; [|split].
  - intros data now Hc. destruct (add_patient_outcome st data now) as [[H _]|[H _]];
      [exact H|contradiction].
  - intros data now Hc. destruct (schedule_outcome st data now) as [[H _]|[H _]];
      [exact H|contradiction].
  - intros req now token Hc. destruct (upload_outcome st req now token) as [[H _]|[H _]];
      [exact H|contradiction].
Qed.

(** X7: after [add_patient] answers 201 with the new [_id],
    [get_patient_details] finds the new patient under any identifier whose
    [str.upper] equals that of the submitted one, with the submitted name
    and the upper-cased identifier. *)
Theorem add_patient_lookup st data now x :
  code (snd (add st data now)) = 201%nat ->
  upper x = upper (dict_at "neonate_id" data) ->
  resp_body (snd (add st data now)) =
    Created "Patient record created successfully." (next_oid st) /\
  get_patient_details upper (fst (add st data now)) x =
    Some {| patientName := dict_at "name" data;
            patientId := upper (dict_at "neonate_id" data);
            pd_id := next_oid st |}.
Proof.
  intros Hc Hx.
  destruct (add_patient_outcome st data now)
    as [[_ Hc']|(_ & Hb & p & Hst & Hid & Hname & Hf)]; [contradiction|].
  split; [exact Hb|]. rewrite Hst.
  unfold get_patient_details, find_patient. cbn [fst insert_patient patients].
  rewrite find_app. unfold find_patient in Hf. rewrite Hx, Hf. simpl.
  rewrite Hid, String.eqb_refl, Hname. simpl. rewrite Hid. reflexivity.
Qed.

(** X8: in every reachable state, every stored appointment and every
    stored image record names, in [patientId], the [neonate_id] of a
    stored patient. *)
Theorem reachable_references st :
  reachable upper dt_parse py_float format_mb can_save st ->
  (forall o a, In (o, a) (appointments st) ->
     exists o' p, In (o', p) (patients st) /\ neonate_id p = ap_patientId a) /\
  (forall o r, In (o, r) (images st) ->
     exists o' p, In (o', p) (patients st) /\ neonate_id p = im_patientId r).
Proof.
  induction 1 as [|st st' _ [IHa IHi] Hs]; [split; intros o x []|].
  pose proof (step_patients_incl st st' Hs) as Hincl.
  assert (Hlift : forall s, (exists o' p, In (o', p) (patients st) /\ neonate_id p = s) ->
                            exists o' p, In (o', p) (patients st') /\ neonate_id p = s).
  { intros s (o' & p & Hin & Heq). exists o', p. split; [apply Hincl, Hin|exact Heq]. }
  destruct (step_cases st st' Hs)
    as [->|[[p ->]|[(a & o & p & -> & Hin & Hid)|(rec & c & o & p & pid & -> & Hin & Hrp & Hid)]]].
  - split; assumption.
  - split; intros o x Hx; apply Hlift; [exact (IHa o x Hx)|exact (IHi o x Hx)].
  - split; intros o' x Hx; apply Hlift; [|exact (IHi o' x Hx)].
    simpl in Hx. apply in_app_or in Hx. destruct Hx as [Hx|[Hx|[]]]; [exact (IHa o' x Hx)|].
    injection Hx as _ <-. exists o, p. split; [exact Hin|exact (eq_sym Hid)].
  - split; intros o' x Hx; apply Hlift; [exact (IHa o' x Hx)|].
    destruct (images_update_in st rec c (next_oid st) (o', x) Hx) as (r & Hr & Hx').
    assert (Hpid : im_patientId x = im_patientId r)
      by (simpl in Hx'; destruct Hx' as [->|[-> _]]; reflexivity).
    rewrite Hpid. apply in_app_or in Hr. destruct Hr as [Hr|[Hr|[]]]; [exact (IHi _ _ Hr)|].
    injection Hr as _ <-. exists o, p. split; [exact Hin|].
    rewrite Hid, upper_idem, Hrp. reflexivity.
Qed.

(** X11: when the upper-cased [patientId] of an upload answered 201 does
    not start with "/", the stored [filepath] is "uploads/" followed by the
    stored [filename], and the file is there. *)
Theorem upload_path_in_folder st req now token st' r pid :
  upload st req now token = (st', r) -> code r = 201%nat ->
  dict_get "patientId" (req_form req) = Some pid ->
  String.prefix "/" (upper pid) = false ->
  exists rec,
    In (next_oid st, rec) (images st') /\
    im_filepath rec = "uploads/" ++ im_filename rec /\
    file_at st' ("uploads/" ++ im_filename rec) <> None.
Proof.
  intros H Hc Hp Hslash.
  destruct (upload_accepted_stored upper format_mb can_save st req now token st' r H Hc)
    as (file & pid' & det & rec & _ & _ & Hp' & _ & Hname & Hpath & Hin & Hfile & _).
  rewrite Hp in Hp'. injection Hp' as <-.
  assert (Hjoin : im_filepath rec = "uploads/" ++ im_filename rec).
  { rewrite Hpath. unfold path_join.
    replace (String.prefix "/" (im_filename rec)) with false; [reflexivity|].
    rewrite Hname. destruct (upper pid) as [|c t]; [reflexivity|].
    etransitivity; [symmetry; exact Hslash|apply prefix_slash_cons]. }
  exists (mark_processed rec). split; [exact Hin|]. split; [exact Hjoin|].
  cbn [im_filename im_filepath mark_processed]. rewrite <- Hjoin, Hfile. discriminate.
Qed.

End Writes.

Lemma rfind_aux_spec c l : forall i acc,
  (rfind_aux c l i acc = acc /\ ~ In c l) \/
  (exists k, rfind_aux c l i acc = (i + Z.of_nat k)%Z /\ nth_error l k = Some c /\
             forall j, (k < j)%nat -> nth_error l j <> Some c).
Proof.
  induction l as [|x t IH]; intros i acc; simpl.
  - left. split; [reflexivity|tauto].
  - destruct (IH (i + 1)%Z (if Ascii.eqb x c then i else acc))
      as [[Hr Hn]|(k & Hr & Hk & Hj)].
    + rewrite Hr. destruct (Ascii.eqb x c) eqn:E.
      * right. exists 0%nat. apply Ascii.eqb_eq in E. subst x.
        split; [lia|]. split; [reflexivity|].
        intros [|j] Hj Hnj; [lia|]. simpl in Hnj. apply Hn. exact (nth_error_In _ _ Hnj).
      * left. split; [reflexivity|]. intros [Hx|Hx]; [|exact (Hn Hx)].
        subst x. rewrite Ascii.eqb_refl in E. discriminate.
    + right. exists (S k). split; [rewrite Hr; lia|]. split; [exact Hk|].
      intros [|j] Hj' Hnj; [lia|]. simpl in Hnj. apply (Hj j); [lia|exact Hnj].
Qed.

Lemma rfind_spec c l :
  (rfind c l = (-1)%Z /\ ~ In c l) \/
  (exists k, rfind c l = Z.of_nat k /\ nth_error l k = Some c /\
             forall j, (k < j)%nat -> nth_error l j <> Some c).
Proof.
  unfold rfind. destruct (rfind_aux_spec c l 0 (-1)) as [H|(k & Hr & Hk & Hj)];
    [left; exact H|right; exists k; split; [rewrite Hr; lia|split; assumption]].
Qed.

Lemma skipn_nth_cons {A} (l : list A) k x :
  nth_error l k = Some x -> skipn k l = x :: skipn (S k) l.
Proof.
  revert l. induction k as [|k IH]; intros [|y t] H; simpl in *; try discriminate.
  - injection H as ->. reflexivity.
  - apply IH, H.
Qed.

Lemma split_at_dot p kd :
  nth_error p kd = Some "."%char ->
  (forall j, (kd < j)%nat -> nth_error p j <> Some "/"%char) ->
  (firstn kd p ++ skipn kd p)%list = p /\
  (exists e, skipn kd p = "."%char :: e /\ ~ In "/"%char e).
Proof.
  intros Hd Hj. split; [apply firstn_skipn|].
  exists (skipn (S kd) p). split; [apply skipn_nth_cons, Hd|].
  intros Hin. apply In_nth_error in Hin. destruct Hin as [j Hnj].
  rewrite nth_error_skipn in Hnj. exact (Hj (S kd + j)%nat ltac:(lia) Hnj).
Qed.

Lemma splitext_list_parts p :
  (fst (splitext_list p) ++ snd (splitext_list p))%list = p /\
  (snd (splitext_list p) = [] \/
   exists e, snd (splitext_list p) = "."%char :: e /\ ~ In "/"%char e).
Proof.
  unfold splitext_list. cbv zeta.
  destruct (rfind_spec "."%char p) as [[Hd _]|(kd & Hd & Hkd & _)].
  - rewrite Hd. destruct (Z.ltb_spec (rfind "/"%char p) (-1)) as [Hlt|_].
    + exfalso. destruct (rfind_spec "/"%char p) as [[Hs _]|(ks & Hs & _)];
        rewrite Hs in Hlt; lia.
    + simpl. split; [apply app_nil_r|left; reflexivity].
  - rewrite Hd, Nat2Z.id.
    destruct (Z.ltb_spec (rfind "/"%char p) (Z.of_nat kd)) as [Hlt|_];
      [|simpl; split; [apply app_nil_r|left; reflexivity]].
    destruct (existsb _ _); [|simpl; split; [apply app_nil_r|left; reflexivity]].
    simpl. assert (Hj : forall j, (kd < j)%nat -> nth_error p j <> Some "/"%char).
    { intros j Hj Hnj. destruct (rfind_spec "/"%char p) as [[Hs Hns]|(ks & Hs & _ & Hjs)].
      - exact (Hns (nth_error_In _ _ Hnj)).
      - rewrite Hs in Hlt. apply (Hjs j); [lia|exact Hnj]. }
    destruct (split_at_dot p kd Hkd Hj) as [H1 H2]. split; [exact H1|right; exact H2].
Qed.

Lemma string_of_list_ascii_app (a b : list ascii) :
  string_of_list_ascii (a ++ b)%list = string_of_list_ascii a ++ string_of_list_ascii b.
Proof. induction a as [|c t IH]; simpl; [reflexivity|rewrite IH; reflexivity]. Qed.

(** X12: [os.path.splitext] splits a path into a root and an extension
    that concatenate back to it; the extension is empty or starts with "."
    and contains no "/". *)
Theorem splitext_parts p :
  fst (splitext p) ++ snd (splitext p) = p /\
  (snd (splitext p) = "" \/
   (exists e, snd (splitext p) = String "." e /\
              ~ In "/"%char (list_ascii_of_string e))).
Proof.
  unfold splitext. destruct (splitext_list_parts (list_ascii_of_string p)) as [Happ Hext].
  destruct (splitext_list (list_ascii_of_string p)) as [a b]. simpl in *. split.
  - rewrite <- string_of_list_ascii_app, Happ. apply string_of_list_ascii_of_string.
  - destruct Hext as [->|(e & -> & He)]; [left; reflexivity|right].
    exists (string_of_list_ascii e). split; [reflexivity|].
    rewrite list_ascii_of_string_of_list_ascii. exact He.
Qed.

Import Fixtures.

Local Abbreviation reach_fx := (reachable upper_ascii parse_iso float_none mb_fmt save_ok).

Lemma reach_db_with nid : reach_fx (db_with nid).
Proof. apply (reach_step _ _ _ _ _ empty_db); [apply reach_empty|apply StepAddPatient]. Qed.

Lemma reach_upload_n001 : reach_fx (fst upload_n001).
Proof.
  apply (reach_step _ _ _ _ _ (db_with "N001")); [apply reach_db_with|apply StepUpload].
Qed.

Lemma reach_db_full : reach_fx db_full.
Proof.
  apply (reach_step _ _ _ _ _ (fst upload_n001)); [apply reach_upload_n001|apply StepSchedule].
Qed.

(** When [file.save] raises, the upload is answered 500 and nothing is
    written. *)
Lemma upload_save_raises :
  upload_image upper_ascii mb_fmt (fun _ => false) (db_with "N001") (scan_upload "n001")
    "2024-01-02T10:00:00" "abc" = (db_with "N001", internal_error).
Proof. vm_compute. reflexivity. Qed.

(** Witness of X5: the state after an upload for N001. *)
Lemma reachable_review_counts_zero_witness :
  reach_fx (fst upload_n001) /\
  images (fst upload_n001) <> [] /\
  pendingReview (get_stats (fst upload_n001) 0%Z) = 0%nat /\
  get_images_for_review (fst upload_n001) "now" = ReviewPlaceholder "now".
Proof.
  split; [exact reach_upload_n001|]. split; [vm_compute; discriminate|].
  destruct (reachable_review_counts_zero upper_ascii parse_iso float_none mb_fmt save_ok _
              reach_upload_n001) as [Hs Hq].
  split; [apply (Hs 0%Z)|apply Hq].
Defined.

(** Witness of X7: registering N001 and looking it up as "n001". *)
Lemma add_patient_lookup_witness :
  code (snd (add_patient upper_ascii parse_iso float_none empty_db (patient_form "N001")
               "2024-01-02T09:00:00")) = 201%nat /\
  upper_ascii "n001" = upper_ascii (dict_at "neonate_id" (patient_form "N001")) /\
  get_patient_details upper_ascii (db_with "N001") "n001" =
    Some {| patientName := "Baby Doe"; patientId := "N001"; pd_id := 0%nat |}.
Proof.
  split; [reflexivity|]. split; [reflexivity|].
  exact (proj2 (add_patient_lookup upper_ascii parse_iso float_none empty_db
                  (patient_form "N001") "2024-01-02T09:00:00" "n001" eq_refl eq_refl)).
Defined.

(** Witness of X8: a state holding a patient, an image and an appointment. *)
Lemma reachable_references_witness :
  reach_fx db_full /\
  appointments db_full <> [] /\ images db_full <> [] /\
  (forall o a, In (o, a) (appointments db_full) ->
     exists o' p, In (o', p) (patients db_full) /\ neonate_id p = ap_patientId a) /\
  (forall o r, In (o, r) (images db_full) ->
     exists o' p, In (o', p) (patients db_full) /\ neonate_id p = im_patientId r).
Proof.
  split; [exact reach_db_full|]. split; [vm_compute; discriminate|].
  split; [vm_compute; discriminate|].
  exact (reachable_references upper_ascii parse_iso float_none mb_fmt save_ok
           upper_ascii_idem db_full reach_db_full).
Defined.

(** Witness of X11: the upload for N001 lands under "uploads/". *)
Lemma upload_path_in_folder_witness :
  code (snd upload_n001) = 201%nat /\
  exists rec, In (1%nat, rec) (images (fst upload_n001)) /\
              im_filepath rec = "uploads/" ++ im_filename rec.
Proof.
  split; [vm_compute; reflexivity|].
  destruct (upload_path_in_folder upper_ascii mb_fmt save_ok (db_with "N001")
              (scan_upload "n001") "2024-01-02T10:00:00" "abc"
              (fst upload_n001) (snd upload_n001) "n001"
              eq_refl eq_refl eq_refl eq_refl) as (rec & Hin & Hp & _).
  exists rec. split; [exact Hin|exact Hp].
Defined.

End AppExtra.

(* ------------------------------------------------------------------------- *)
(** * Further properties of ai_service.py *)

Module AiExtra.
Import AiService.

Lemma predict_block_shape m x :
  (status (predict_block m x) = "processed" /\
   In (prediction (predict_block m x)) class_labels) \/
  predict_block m x = inference_exception.
Proof.
  unfold predict_block.
  destruct (predict m x) as [rows|]; [|right; reflexivity].
  destruct (argmax_axis1 rows) as [[|idx t]|]; try (right; reflexivity).
  destruct (np_max rows) as [p|]; [|right; reflexivity].
  destruct (nth_error class_labels idx) as [label|] eqn:El; [|right; reflexivity].
  left. split; [reflexivity|]. exact (nth_error_In _ _ El).
Qed.

Lemma scale_unit (v : Z) : (0 <= v <= 255)%Z -> 0 <= inject_Z v / 255 <= 1.
Proof.
  intros [H0 H1]. unfold Qdiv, Qle, Qmult, Qinv. simpl. lia.
Qed.

Section Inference.

Variable image : Type.
Variable pil_open_rgb : list Byte.byte -> option image.
Variable pil_resize : image -> nat * nat -> image.
Variable np_array : image -> list (list (list Z)).

Local Abbreviation preprocess := (preprocess_image image pil_open_rgb pil_resize np_array).
Local Abbreviation run_inf := (run_inference image pil_open_rgb pil_resize np_array).
Local Abbreviation process := (run_process image pil_open_rgb pil_resize np_array).

(** X13: every result of [run_inference] either has status "processed"
    and one of the four class labels as prediction, or has status
    "failed", probability 0 and one of the three error predictions. *)
Theorem run_inference_result_shape s a b :
  (status (snd (run_inf s a b)) = "processed" /\
   In (prediction (snd (run_inf s a b))) class_labels) \/
  (status (snd (run_inf s a b)) = "failed" /\
   probability (snd (run_inf s a b)) = 0 /\
   In (prediction (snd (run_inf s a b)))
      ["Model Error"; "Preprocessing Error"; "Inference Exception"]).
Proof.
  unfold run_inference. destruct (load_model s a) as [s' t].
  assert (Hfail : forall r, r = model_error \/ r = preprocessing_error \/
                            r = inference_exception ->
            (status r = "processed" /\ In (prediction r) class_labels) \/
            (status r = "failed" /\ probability r = 0 /\
             In (prediction r) ["Model Error"; "Preprocessing Error"; "Inference Exception"])).
  { intros r [ -> | [ -> | -> ] ]; right; simpl; intuition. }
  destruct (model_truthy s') eqn:Et; cbn [negb snd];
    [|apply (Hfail model_error); auto].
  destruct s' as [| |m]; try discriminate Et.
  destruct (preprocess b) as [x|]; cbn [snd]; [|apply (Hfail preprocessing_error); auto].
  destruct (predict_block_shape m x) as [H|H]; [left; exact H|].
  rewrite H. apply (Hfail inference_exception). auto.
Qed.

(** X14: when PIL decodes the bytes and the resized image's array holds
    8-bit values (0 to 255), [preprocess_image] returns a batch of exactly
    one image whose values all lie between 0 and 1. *)
Theorem preprocess_image_unit_range b img :
  pil_open_rgb b = Some img ->
  Forall (Forall (Forall (fun v => (0 <= v <= 255)%Z)))
         (np_array (pil_resize img (224%nat, 224%nat))) ->
  exists x, preprocess_image image pil_open_rgb pil_resize np_array b = Some [x] /\
            Forall (Forall (Forall (fun q => 0 <= q <= 1))) x.
Proof.
  intros Ho Hr. unfold preprocess_image. rewrite Ho.
  eexists. split; [reflexivity|].
  apply Forall_map. refine (Forall_impl _ _ Hr). intros row Hrow.
  apply Forall_map. refine (Forall_impl _ _ Hrow). intros px Hpx.
  apply Forall_map. refine (Forall_impl _ _ Hpx). intros v Hv.
  apply scale_unit, Hv.
Qed.

(** X15: when the import-time load succeeds, the process loads the model
    from disk exactly once, and the result of each later call depends only
    on that call's image bytes: "Preprocessing Error" when they cannot be
    preprocessed, the prediction of the loaded model otherwise. *)
Theorem run_process_loaded m calls :
  process (Some m) calls =
    (map (fun c => match preprocess (snd c) with
                   | None => preprocessing_error
                   | Some x => predict_block m x
                   end) calls, 1%nat).
Proof.
  unfold run_process. simpl.
  assert (H : run_calls image pil_open_rgb pil_resize np_array (ModelLoaded m) calls =
              (map (fun c => match preprocess (snd c) with
                             | None => preprocessing_error
                             | Some x => predict_block m x
                             end) calls, 0%nat)).
  { induction calls as [|[a b] rest IH]; [reflexivity|].
    cbn [run_calls].
    pose proof (AiProofs.run_inference_state image pil_open_rgb pil_resize np_array
                  (ModelLoaded m) a b) as Hs.
    pose proof (AiProofs.run_inference_loaded image pil_open_rgb pil_resize np_array
                  (ModelLoaded m) a b m eq_refl) as Hl.
    destruct (run_inf (ModelLoaded m) a b) as [s' r]. simpl in Hs, Hl. subst s' r.
    rewrite IH. reflexivity. }
  rewrite H. reflexivity.
Qed.

End Inference.

Import Fixtures.

(** Witness of X14: one decoded pixel (0, 128, 255). *)
Lemma preprocess_image_unit_range_witness :
  exists x, preprocess_image unit open_any resize_id array_pixel [Byte.x00] = Some [x] /\
            x <> [] /\ Forall (Forall (Forall (fun q => 0 <= q <= 1))) x.
Proof.
  destruct (preprocess_image_unit_range unit open_any resize_id array_pixel [Byte.x00] tt
              eq_refl) as (x & Hx & Hr).
  - cbv [array_pixel resize_id].
    repeat (apply Forall_cons || apply Forall_nil || (split; discriminate)).
  - exists x. split; [exact Hx|]. split; [|exact Hr].
    vm_compute in Hx. injection Hx as <-. discriminate.
Defined.

End AiExtra.
